(** * Emotion timeline analysis: a model of [analyze_emotion_timeline.py]

    The script turns dated journal records into one [DayEmotion] per record
    and a summary of the whole period.  This development embeds the script
    function by function and proves the properties stated for it.

    Data is modelled the way the interpreter holds it:
    - a [float] is an IEEE 754 binary64 value ([spec_float] of the
      Standard Library, precision 53, [emax] 1024), with its NaN, its
      infinities and its two zeros;
    - a [str] is a sequence of Unicode code points;
    - a value read from JSON is a [json];
    - a [dict] read through [get] is a finite map, a dict whose iteration
      order is observed is an association list in insertion order;
    - an exception is a value of [exn], carried by the left summand of a
      sum; the external services are state transformers over an abstract
      outside world, and every call to them is logged. *)

From Stdlib Require Import ZArith Lia String Ascii List.
From Stdlib Require Import Floats.SpecFloat.
From stdpp Require Import base option list gmap sorting.

Local Open Scope Z_scope.

(** ** Floating point numbers *)

Module PyFloat.

Definition float : Type := spec_float.

Definition prec : Z := 53.
Definition emax : Z := 1024.

(** A [spec_float] is a binary64 number when its mantissa is canonical
    and its exponent is in range. *)
Definition is_binary64 (x : float) : bool := valid_binary prec emax x.

Definition fadd : float -> float -> float := SFadd prec emax.
Definition fsub : float -> float -> float := SFsub prec emax.
Definition fdiv : float -> float -> float := SFdiv prec emax.
Definition fneg : float -> float := SFopp.

(** The four order comparisons of Python on floats: any comparison with a
    NaN is [false]. *)
Definition flt (x y : float) : bool := SFltb x y.
Definition fle (x y : float) : bool := SFleb x y.
Definition fgt (x y : float) : bool := SFltb y x.
Definition fge (x y : float) : bool := SFleb y x.

(** [float(z)] for an integer [z], rounded to nearest even. *)
Definition of_int (z : Z) : float := binary_normalize prec emax z 0 false.

(** The float literal [n * 10 ** -d]: the parser returns the binary64
    number nearest to the decimal, which is what the correctly rounded
    quotient of the two exactly representable operands is. *)
Definition decimal (n : Z) (d : nat) : float :=
  fdiv (of_int n) (of_int (10 ^ Z.of_nat d)).

Definition zero : float := S754_zero false.
Definition one : float := of_int 1.

(** The builtins [min(a, b)] and [max(a, b)] keep their first argument
    unless the second one compares strictly below (above) it. *)
Definition py_min (a b : float) : float := if flt b a then b else a.
Definition py_max (a b : float) : float := if fgt b a then b else a.

(** Nearest integer to [n / d], ties to even, for [0 <= n] and [0 < d]. *)
Definition div_half_even (n d : Z) : Z :=
  let q := n / d in
  let r := n mod d in
  match 2 * r ?= d with
  | Lt => q
  | Gt => q + 1
  | Eq => if Z.even q then q else q + 1
  end.

(** The float nearest to [k / 10 ** ndigits], with sign [s]. *)
Definition of_scaled (s : bool) (k : Z) (ndigits : nat) : float :=
  match k with
  | Zpos p =>
      fdiv (S754_finite s p 0)
           (S754_finite false (Z.to_pos (10 ^ Z.of_nat ndigits)) 0)
  | _ => S754_zero s
  end.

(** [round(x, ndigits)] for [0 <= ndigits]: the exact value of [x] is
    rounded half to even at [ndigits] decimals, and the decimal obtained is
    read back as a float.  Infinities and NaN round to themselves. *)
Definition py_round (x : float) (ndigits : nat) : float :=
  match x with
  | S754_finite s m e =>
      let scale := 10 ^ Z.of_nat ndigits in
      let num := Zpos m * scale * 2 ^ Z.max e 0 in
      let den := 2 ^ Z.max (- e) 0 in
      of_scaled s (div_half_even num den) ndigits
  | _ => x
  end.

(** [sum(xs)] as CPython up to 3.11 adds floats: from left to right, to the
start value [0]. *)
Definition sum_left_to_right (xs : list float) : float := fold_left fadd xs zero.

(** [sum(xs)] as CPython from 3.12 on adds floats: the rounding error of
every addition is collected in [c] (Neumaier's summation) and added to the
total at the end, when it is finite and not zero. *)
Fixpoint sum_neumaier (f c : float) (xs : list float) : float :=
  match xs with
  | [] =>
      match c with
      | S754_finite _ _ _ => fadd f c
      | _ => f
      end
  | x :: xs' =>
      let t := fadd f x in
      let c' :=
        if fge (SFabs f) (SFabs x) then fadd c (fadd (fsub f t) x)
        else fadd c (fadd (fsub x t) f) in
      sum_neumaier t c' xs'
  end.

Definition sum_compensated (xs : list float) : float :=
  match xs with
  | [] => zero
  | x :: xs' => sum_neumaier (fadd zero x) zero xs'
  end.

End PyFloat.

Import PyFloat.

(** ** What the interpreter decides

    How the builtin [sum] adds floats is not the same in every interpreter
    (see [sum_left_to_right] and [sum_compensated]), and the two can differ
    in the last bit of a sum.  The script is modelled over any of them. *)
Class Builtins : Type := { py_sum : list float -> float }.

Definition cpython_up_to_311 : Builtins := {| py_sum := sum_left_to_right |}.
Definition cpython_from_312 : Builtins := {| py_sum := sum_compensated |}.


(** ** Strings, exceptions and JSON values *)

(** A Python [str] is a sequence of code points. *)
Definition str : Type := list N.

(** The [str] written by an ASCII literal of the script. *)
Definition lit (s : string) : str := map N_of_ascii (list_ascii_of_string s).

Definition NEWLINE : str := [10%N].

(** [str.isspace] on one code point: the characters that [str.strip]
    removes. *)
Definition is_space (c : N) : bool :=
  ((9 <=? c) && (c <=? 13) || (28 <=? c) && (c <=? 32)
   || (c =? 133) || (c =? 160) || (c =? 5760)
   || (8192 <=? c) && (c <=? 8202)
   || (c =? 8232) || (c =? 8233) || (c =? 8239) || (c =? 8287)
   || (c =? 12288))%N.

Fixpoint lstrip (s : str) : str :=
  match s with
  | c :: s' => if is_space c then lstrip s' else s
  | [] => []
  end.

(** [s.strip()] *)
Definition strip (s : str) : str := rev (lstrip (rev (lstrip s))).

(** [sep.join(parts)] *)
Fixpoint join (sep : str) (parts : list str) : str :=
  match parts with
  | [] => []
  | [p] => p
  | p :: rest => p ++ sep ++ join sep rest
  end.

Fixpoint starts_with (pre s : str) : bool :=
  match pre, s with
  | [], _ => true
  | a :: pre', b :: s' => (a =? b)%N && starts_with pre' s'
  | _ :: _, [] => false
  end.

(** The scan of [s.replace(old, new)] for a non-empty [old]: [skip] counts
    the characters of a match that are still to be dropped. *)
Fixpoint replace_scan (old new : str) (skip : nat) (s : str) : str :=
  match s with
  | [] => []
  | c :: s' =>
      match skip with
      | S k => replace_scan old new k s'
      | O =>
          if starts_with old s
          then new ++ replace_scan old new (length old - 1) s'
          else c :: replace_scan old new 0 s'
      end
  end.

(** [s.replace(old, new)]: every non-overlapping occurrence of [old], from
    the left, becomes [new]; an empty [old] matches before every character
    and at the end. *)
Definition replace (old new s : str) : str :=
  match old with
  | [] => new ++ flat_map (fun c => c :: new) s
  | _ :: _ => replace_scan old new 0 s
  end.

(** The bound [i] of a slice of a sequence of length [len]: a negative
    bound counts from the end, and every bound is cut to [0, len]. *)
Definition slice_bound (len i : Z) : Z :=
  if i <? 0 then Z.max (i + len) 0 else Z.min i len.

(** [l[start:stop]] *)
Definition slice {A} (l : list A) (start stop : Z) : list A :=
  let n := Z.of_nat (length l) in
  let a := slice_bound n start in
  let b := slice_bound n stop in
  take (Z.to_nat (b - a)) (drop (Z.to_nat a) l).

(** Lexicographic [<] on strings, by code point. *)
Fixpoint str_ltb (a b : str) : bool :=
  match a, b with
  | _, [] => false
  | [], _ :: _ => true
  | x :: a', y :: b' => (x <? y)%N || (x =? y)%N && str_ltb a' b'
  end.

Inductive exn : Type :=
| AttributeError
| KeyError (key : str)
| TypeError
| ValueError (msg : string)
| UnicodeEncodeError
| ServiceError (code : nat).

(** What [json.loads] returns. *)
#[warnings="-register-all"] Inductive json : Type :=
| JNull
| JBool (b : bool)
| JInt (z : Z)
| JFloat (x : float)
| JStr (s : str)
| JList (items : list json)
| JDict (fields : gmap str json).

(** Truth value of an object, as [not value] tests it. *)
Definition truthy (v : json) : bool :=
  match v with
  | JNull => false
  | JBool b => b
  | JInt z => negb (z =? 0)
  | JFloat x => negb (SFeqb x zero)
  | JStr s => negb (Nat.eqb (length s) 0)
  | JList items => negb (Nat.eqb (length items) 0)
  | JDict fields => negb (Nat.eqb (size fields) 0)
  end.

(** [d.get(key, default)] *)
Definition dict_get (d : gmap str json) (key : str) (default : json) : json :=
  match d !! key with
  | Some v => v
  | None => default
  end.


(** ** The script *)

(** *** [_norm_text] *)

(** A falsy value gives the empty string; [replace] exists on strings
    only, so any other truthy value raises [AttributeError]. *)
Definition _norm_text (value : json) : exn + str :=
  if negb (truthy value) then inr []
  else match value with
       | JStr s => inr (replace (lit "<br>") NEWLINE s)
       | _ => inl AttributeError
       end.

(** *** [_chunk_text] *)

(** The [while] loop, run for at most [fuel] iterations; [None] when the
    fuel does not suffice. *)
Fixpoint chunk_loop (fuel : nat) (text : str) (chunk_size : Z)
    (start : Z) (chunks : list str) : option (list str) :=
  if start <? Z.of_nat (length text) then
    match fuel with
    | O => None
    | S fuel' =>
        let end_ := Z.min (start + chunk_size) (Z.of_nat (length text)) in
        chunk_loop fuel' text chunk_size end_ (chunks ++ [slice text start end_])
    end
  else Some chunks.

Definition chunk_text_fuel (fuel : nat) (text : str) (chunk_size : Z)
  : option (list str) :=
  if Z.of_nat (length text) <=? chunk_size then Some [text]
  else chunk_loop fuel text chunk_size 0 [].

(** One iteration for each character is enough whenever the loop
    terminates. *)
Definition _chunk_text (text : str) (chunk_size : Z) : option (list str) :=
  chunk_text_fuel (length text) text chunk_size.


(** *** [DayEmotion], [_to_label], [_to_emotions] *)

Record DayEmotion : Type := {
  date : json;
  sentiment_score : float;
  sentiment_label : str;
  subjectivity : float;
  dominant_emotions : list str;
}.

Definition _to_label (polarity : float) : str :=
  if fge polarity (decimal 2 1) then lit "positive"
  else if fle polarity (fneg (decimal 2 1)) then lit "negative"
  else lit "neutral".

Definition _to_emotions (polarity subjectivity : float) : list str :=
  if fge polarity (decimal 45 2) then
    if fge subjectivity (decimal 45 2)
    then [lit "joy"; lit "confidence"]
    else [lit "calm"; lit "confidence"]
  else if fge polarity (decimal 15 2) then [lit "calm"; lit "confidence"]
  else if fle polarity (fneg (decimal 45 2)) then
    if fge subjectivity (decimal 45 2)
    then [lit "frustration"; lit "anxiety"]
    else [lit "anxiety"; lit "calm"]
  else if fle polarity (fneg (decimal 15 2)) then [lit "anxiety"; lit "calm"]
  else [lit "calm"].

(** *** Computations with effects *)

(** A call to one of the two external services. *)
Inductive call : Type :=
| Translate (chunk : str)
| Sentiment (text : str).

(** How a computation ends: with a value, with an exception, or not at
    all. *)
Inductive outcome (A : Type) : Type :=
| Return (a : A)
| Raise (e : exn)
| Diverge.
Arguments Return {A} a.
Arguments Raise {A} e.
Arguments Diverge {A}.

(** What the script writes to [emotion_timeline.json]. *)
Record Summary : Type := {
  days : nat;
  average_sentiment : float;
  average_subjectivity : float;
  label_counts : gmap str nat;
  trend : str;
  most_common_emotions : list (str * nat);
}.

Record Output : Type := {
  summary : Summary;
  timeline : list DayEmotion;
}.

(** What is at the path of the output file: nothing, a file of no byte
    (opened for writing, nothing written yet), or a document. *)
Inductive file : Type :=
| Missing
| Empty
| Document (out : Output).

Section effects.

(** The state of what lies outside the script: the translation service
    and the sentiment library. *)
Context {Ext : Type}.

(** The state a run threads: the outside world, the log of the calls made
    to it, and the two places of the file system the script writes. *)
Record world : Type := {
  ext : Ext;
  calls : list call;
  outdir_made : bool;
  out_file : file;
}.

Definition M (A : Type) : Type := world -> world * outcome A.

Definition ret {A} (a : A) : M A := fun w => (w, Return a).
Definition raise {A} (e : exn) : M A := fun w => (w, Raise e).

Definition bind {A B} (m : M A) (k : A -> M B) : M B :=
  fun w =>
    match m w with
    | (w', Return a) => k a w'
    | (w', Raise e) => (w', Raise e)
    | (w', Diverge) => (w', Diverge)
    end.

(** [try: m  except Exception: h] *)
Definition try_except {A} (m : M A) (h : exn -> M A) : M A :=
  fun w =>
    match m w with
    | (w', Raise e) => h e w'
    | r => r
    end.

(** A pure computation that may raise. *)
Definition lift_exn {A} (r : exn + A) : M A :=
  match r with
  | inl e => raise e
  | inr a => ret a
  end.

(** A loop with fuel: out of fuel, it has not returned. *)
Definition lift_fuel {A} (r : option A) : M A :=
  match r with
  | Some a => ret a
  | None => fun w => (w, Diverge)
  end.

(** The body of [for x in xs: ys.append(f(x))]. *)
Fixpoint for_each {A B} (f : A -> M B) (xs : list A) : M (list B) :=
  match xs with
  | [] => ret []
  | x :: xs' =>
      bind (f x) (fun y => bind (for_each f xs') (fun ys => ret (y :: ys)))
  end.

End effects.

Arguments world Ext : clear implicits.
Arguments M Ext A : clear implicits.

Notation "x <- m ;; k" := (bind m (fun x => k))
  (at level 100, m at next level, right associativity).

(** The first exception of a sequence of pure computations, or all their
    values. *)
Fixpoint collect {A} (rs : list (exn + A)) : exn + list A :=
  match rs with
  | [] => inr []
  | inl e :: _ => inl e
  | inr a :: rs' =>
      match collect rs' with
      | inl e => inl e
      | inr l => inr (a :: l)
      end
  end.

(** *** Sorting *)

(** [sorted] and [list.sort] are stable: on keys that are totally ordered
    their result is the one ordered arrangement in which items with equal
    keys keep their order of arrival.  Inserting the items from the right,
    each before the first item that need not come ahead of it, computes that
    arrangement.  [ahead y x] says that [y] has to come strictly before
    [x]. *)
Section stable_sort.
Context {A : Type} (ahead : A -> A -> bool).

Fixpoint insert_sorted (x : A) (l : list A) : list A :=
  match l with
  | [] => [x]
  | y :: l' => if ahead y x then y :: insert_sorted x l' else x :: l
  end.

Definition stable_sort (l : list A) : list A := foldr insert_sorted [] l.
End stable_sort.

(** *** [_translate_ja_to_en] and [analyze_record] *)

Definition FIELDS : list str :=
  [lit "experience"; lit "reflection"; lit "abstraction"; lit "next_action"].

Section pipeline.

Context {Ext : Type}.

(** [translator.translate(chunk)] and [TextBlob(text).sentiment], which
    holds the pair (polarity, subjectivity) and is computed once for a
    blob. *)
Variable translate : str -> Ext -> Ext * outcome str.
Variable sentiment : str -> Ext -> Ext * outcome (float * float).

Definition log_call (c : call) (x : Ext) (w : world Ext) : world Ext :=
  {| ext := x; calls := calls w ++ [c];
     outdir_made := outdir_made w; out_file := out_file w |}.

Definition call_translate (chunk : str) : M Ext str :=
  fun w =>
    let '(x, r) := translate chunk (ext w) in (log_call (Translate chunk) x w, r).

Definition call_sentiment (text : str) : M Ext (float * float) :=
  fun w =>
    let '(x, r) := sentiment text (ext w) in (log_call (Sentiment text) x w, r).

Definition _translate_ja_to_en (text : str) : M Ext str :=
  chunks <- lift_fuel (_chunk_text text 3000);;
  translated_parts <- for_each call_translate chunks;;
  ret (join NEWLINE translated_parts).

(** The text of a record: its four fields, normalised, joined and
    stripped. *)
Definition joined_text (record : gmap str json) : exn + str :=
  match collect (map (fun k => _norm_text (dict_get record k (JStr []))) FIELDS) with
  | inl e => inl e
  | inr parts => inr (strip (join NEWLINE parts))
  end.

(** The part of [analyze_record] that follows the translation: the text
    is scored, the scores are clamped, classified and rounded. *)
Definition score_text (date : json) (translated : str) : M Ext DayEmotion :=
  blob_sentiment <- call_sentiment translated;;
  let polarity := py_max (fneg one) (py_min one (fst blob_sentiment)) in
  let subjectivity := py_max zero (py_min one (snd blob_sentiment)) in
  let label := _to_label polarity in
  let dominant := _to_emotions polarity subjectivity in
  ret {| date := date;
         sentiment_score := py_round polarity 3;
         sentiment_label := label;
         subjectivity := py_round subjectivity 3;
         dominant_emotions := dominant |}.

Definition analyze_record (record : gmap str json) : M Ext DayEmotion :=
  let date := dict_get record (lit "date") (JStr []) in
  joined <- lift_exn (joined_text record);;
  if Nat.eqb (length joined) 0 then
    ret {| date := date;
           sentiment_score := zero;
           sentiment_label := lit "neutral";
           subjectivity := zero;
           dominant_emotions := [lit "calm"] |}
  else
    translated <- try_except (_translate_ja_to_en joined) (fun _ => ret joined);;
    score_text date translated.

End pipeline.

(** *** [summarize] *)

(** [counts[key] = counts.get(key, 0) + 1] on a dict kept in insertion
    order. *)
Fixpoint dict_incr (key : str) (counts : list (str * nat)) : list (str * nat) :=
  match counts with
  | [] => [(key, 1%nat)]
  | (k, v) :: counts' =>
      if decide (k = key) then (k, S v) :: counts'
      else (k, v) :: dict_incr key counts'
  end.

(** The loop over the days: [label_counts[label] += 1] raises [KeyError]
    on a label that is not a key. *)
Fixpoint tally (ds : list DayEmotion) (label_counts : gmap str nat)
    (emotion_counts : list (str * nat)) : exn + (gmap str nat * list (str * nat)) :=
  match ds with
  | [] => inr (label_counts, emotion_counts)
  | d :: ds' =>
      match label_counts !! sentiment_label d with
      | None => inl (KeyError (sentiment_label d))
      | Some n =>
          tally ds' (<[sentiment_label d := S n]> label_counts)
                (fold_left (fun counts e => dict_incr e counts)
                           (dominant_emotions d) emotion_counts)
      end
  end.

Definition ZERO_COUNTS : gmap str nat :=
  <[lit "positive" := 0%nat]> (<[lit "neutral" := 0%nat]> (<[lit "negative" := 0%nat]> ∅)).

(** [sum(d.sentiment_score for d in ds)] *)
Definition sum_scores {builtins : Builtins} (ds : list DayEmotion) : float :=
  py_sum (map sentiment_score ds).

(** An [int] count as the divisor of a float. *)
Definition of_nat (n : nat) : float := of_int (Z.of_nat n).

Definition summarize {builtins : Builtins} (ds : list DayEmotion) : exn + Summary :=
  match ds with
  | [] =>
      inr {| days := 0;
             average_sentiment := zero;
             average_subjectivity := zero;
             label_counts := ZERO_COUNTS;
             trend := lit "insufficient_data";
             most_common_emotions := [] |}
  | _ :: _ =>
      let avg := fdiv (sum_scores ds) (of_nat (length ds)) in
      let avg_subjectivity :=
        fdiv (py_sum (map subjectivity ds)) (of_nat (length ds)) in
      match tally ds ZERO_COUNTS [] with
      | inl e => inl e
      | inr (label_counts, emotion_counts) =>
          let half := (length ds / 2)%nat in
          let trend :=
            if (4 <=? length ds)%nat then
              let first := fdiv (sum_scores (take half ds)) (of_nat (Nat.max 1 half)) in
              let second :=
                fdiv (sum_scores (drop half ds))
                     (of_nat (Nat.max 1 (length ds - half))) in
              let delta := fsub second first in
              if fgt delta (decimal 12 2) then lit "improving"
              else if flt delta (fneg (decimal 12 2)) then lit "declining"
              else lit "stable"
            else lit "stable" in
          let common_emotions :=
            take 3 (stable_sort (fun y x => (snd x <? snd y)%nat) emotion_counts) in
          inr {| days := length ds;
                 average_sentiment := py_round avg 3;
                 average_subjectivity := py_round avg_subjectivity 3;
                 label_counts := label_counts;
                 trend := trend;
                 most_common_emotions := common_emotions |}
      end
  end.

(** *** [main] *)

Definition is_str (v : json) : bool :=
  match v with JStr _ => true | _ => false end.

Definition date_ahead (a b : DayEmotion) : bool :=
  match date a, date b with
  | JStr x, JStr y => str_ltb x y
  | _, _ => false
  end.

(** The text of the output is written in UTF-8, which has no encoding for
    a surrogate code point (U+D800 to U+DFFF): [json.loads] accepts one in a
    string, [json.dumps(..., ensure_ascii=False)] copies it into the text, and
    writing the text raises.  The strings of the output are the strings of
    the dates (of any JSON value, keys included), the labels, the emotion
    tags and the keys of the summary. *)
Definition is_surrogate (c : N) : bool := ((55296 <=? c) && (c <=? 57343))%N.

Definition utf8_ok (s : str) : bool :=
  forallb (fun c => negb (is_surrogate c)) s.

Fixpoint json_utf8_ok (v : json) : bool :=
  match v with
  | JStr s => utf8_ok s
  | JList items => forallb json_utf8_ok items
  | JDict fields =>
      map_fold (fun k v' ok => ok && utf8_ok k && json_utf8_ok v') true fields
  | _ => true
  end.

Definition day_utf8_ok (d : DayEmotion) : bool :=
  json_utf8_ok (date d) && utf8_ok (sentiment_label d)
  && forallb utf8_ok (dominant_emotions d).

Definition summary_utf8_ok (s : Summary) : bool :=
  utf8_ok (trend s)
  && forallb (fun entry => utf8_ok (fst entry)) (most_common_emotions s)
  && forallb (fun entry => utf8_ok (fst entry)) (map_to_list (label_counts s)).

Definition output_utf8_ok (out : Output) : bool :=
  summary_utf8_ok (summary out) && forallb day_utf8_ok (timeline out).

Section main.

Context {Ext : Type} {builtins : Builtins}.
Variable translate : str -> Ext -> Ext * outcome str.
Variable sentiment : str -> Ext -> Ext * outcome (float * float).

(** [analyzed.sort(key=lambda d: d.date)] compares the dates with [<].
    Strings are totally ordered and the sort is stable.  What the sort
    does with two or more dates that are not all strings (numbers are
    ordered, [None] and dicts raise [TypeError], a NaN leaves the order to
    the algorithm) is left to the interpreter. *)
Variable sort_other_dates : list DayEmotion -> exn + list DayEmotion.

Definition sort_by_date (ds : list DayEmotion) : exn + list DayEmotion :=
  if forallb (fun d => is_str (date d)) ds then inr (stable_sort date_ahead ds)
  else if (length ds <=? 1)%nat then inr ds
  else sort_other_dates ds.

(** The loop over the records: an element that is not a dict is
    skipped. *)
Fixpoint analyze_all (records : list json) : M Ext (list DayEmotion) :=
  match records with
  | [] => ret []
  | JDict rec :: rest =>
      d <- analyze_record translate sentiment rec;;
      analyzed <- analyze_all rest;;
      ret (d :: analyzed)
  | _ :: rest => analyze_all rest
  end.

(** [outdir.mkdir(parents=True, exist_ok=True)].  The file system is taken
    to grant what the script asks of it: whether a directory can be made
    depends on the machine, not on the payload, and is outside the model. *)
Definition mkdir_outdir : M Ext unit :=
  fun w => ({| ext := ext w; calls := calls w;
               outdir_made := true; out_file := out_file w |}, Return tt).

(** [out_file.write_text(json.dumps(out, ...), encoding="utf-8")]: the file
    is opened for writing, which creates it or empties it, and the text is
    encoded and written; a text with a surrogate raises at the encoding and
    leaves the file without a byte. *)
Definition write_out (out : Output) : M Ext unit :=
  fun w =>
    if output_utf8_ok out then
      ({| ext := ext w; calls := calls w;
          outdir_made := outdir_made w; out_file := Document out |}, Return tt)
    else
      ({| ext := ext w; calls := calls w;
          outdir_made := outdir_made w; out_file := Empty |},
       Raise UnicodeEncodeError).

(** [main], from the parsed payload on: [payload.get] exists on a dict
    only. *)
Definition main (payload : json) : M Ext unit :=
  _ <- mkdir_outdir;;
  records <- match payload with
             | JDict fields => ret (dict_get fields (lit "records") (JList []))
             | _ => raise AttributeError
             end;;
  match records with
  | JList items =>
      analyzed <- analyze_all items;;
      analyzed <- lift_exn (sort_by_date analyzed);;
      summary <- lift_exn (summarize analyzed);;
      write_out {| summary := summary; timeline := analyzed |}
  | _ => raise (ValueError "'records' must be a list")
  end.

End main.

(** ** Definitions used by the statements and the proofs *)

(** The floats of three decimals between [-1] and [1], checked one by
    one. *)
Definition milli_in_range (k : nat) : bool :=
  forallb (fun s =>
             fle (fneg one) (of_scaled s (Z.of_nat k) 3)
             && fle (of_scaled s (Z.of_nat k) 3) one
             && is_binary64 (of_scaled s (Z.of_nat k) 3))
          [false; true]
  && fle zero (of_scaled false (Z.of_nat k) 3).


(** The [DayEmotion] of a record without text. *)
Definition neutral_day (date : json) : DayEmotion :=
  {| date := date;
     sentiment_score := zero;
     sentiment_label := lit "neutral";
     subjectivity := zero;
     dominant_emotions := [lit "calm"] |}.

(** The clamped scores. *)
Definition clamp_polarity (raw : float) : float :=
  py_max (fneg one) (py_min one raw).
Definition clamp_subjectivity (raw : float) : float :=
  py_max zero (py_min one raw).

(** The [DayEmotion] built from the raw scores [(p, s)] of a text. *)
Definition scored_day (date : json) (p s : float) : DayEmotion :=
  {| date := date;
     sentiment_score := py_round (clamp_polarity p) 3;
     sentiment_label := _to_label (clamp_polarity p);
     subjectivity := py_round (clamp_subjectivity s) 3;
     dominant_emotions := _to_emotions (clamp_polarity p) (clamp_subjectivity s) |}.

(** The date a record carries: any JSON value, the empty string when the
    key is missing. *)
Definition record_date (record : gmap str json) : json :=
  dict_get record (lit "date") (JStr []).

(** The three labels and the five emotion tags. *)
Definition LABELS : list str := [lit "positive"; lit "neutral"; lit "negative"].
Definition EMOTIONS : list str :=
  [lit "joy"; lit "confidence"; lit "calm"; lit "frustration"; lit "anxiety"].

(** Stubs of the external services, for running the script on concrete
    inputs: a translator that is unreachable, one that answers with the
    chunk it is given, and a sentiment library with a fixed answer. *)
Definition translate_down (chunk : str) (x : unit) : unit * outcome str :=
  (x, Raise (ServiceError 503)).
Definition translate_echo (chunk : str) (x : unit) : unit * outcome str :=
  (x, Return chunk).
Definition sentiment_const (p s : float) (text : str) (x : unit)
  : unit * outcome (float * float) :=
  (x, Return (p, s)).
Definition sentiment_down (text : str) (x : unit) : unit * outcome (float * float) :=
  (x, Raise (ServiceError 500)).
Definition sort_refused (ds : list DayEmotion) : exn + list DayEmotion :=
  inl TypeError.

Definition world0 : world unit :=
  {| ext := tt; calls := []; outdir_made := false; out_file := Missing |}.

(** A record with the given text fields (and no other key). *)
Definition record_of (fields : list (str * json)) : gmap str json :=
  list_to_map fields.

(** The tags of the days, in the order the loop of [summarize] meets
    them. *)
Definition tags_seen (ds : list DayEmotion) : list str :=
  concat (map dominant_emotions ds).


(** The tally of a sequence of tags. *)
Definition count_emotions (tags : list str) : list (str * nat) :=
  fold_left (fun counts e => dict_incr e counts) tags [].

Definition occurrences (tag : str) (tags : list str) : nat :=
  length (filter (fun t => t = tag) tags).


(** Number of days labelled [label]. *)
Definition days_labelled (label : str) (ds : list DayEmotion) : nat :=
  length (filter (fun d => sentiment_label d = label) ds).

(** The arithmetic mean of some floats: their [sum] over their number. *)
Definition mean {builtins : Builtins} (xs : list float) : float :=
  fdiv (py_sum xs) (of_nat (length xs)).

(** The world in which the output file has been opened and nothing
    written. *)
Definition with_empty_file {Ext} (w : world Ext) : world Ext :=
  {| ext := ext w; calls := calls w; outdir_made := outdir_made w;
     out_file := Empty |}.

(** The order [sorted(..., key=count, reverse=True)] sorts the tally in. *)
Definition more_frequent (y x : str * nat) : bool := (snd x <? snd y)%nat.

(** The distinct tags of a sequence, each at the place of its first
    occurrence. *)
Definition keys_of (tags : list str) : list str :=
  fold_left (fun ks e => if decide (e ∈ ks) then ks else ks ++ [e]) tags [].

(** The elements of [records] that are dicts, in order. *)
Definition dict_records (items : list json) : list (gmap str json) :=
  omap (fun v => match v with JDict r => Some r | _ => None end) items.

(** The world once the output directory exists, and once the output file is
    written. *)
Definition with_outdir {Ext} (w : world Ext) : world Ext :=
  {| ext := ext w; calls := calls w; outdir_made := true; out_file := out_file w |}.
Definition with_output {Ext} (out : Output) (w : world Ext) : world Ext :=
  {| ext := ext w; calls := calls w; outdir_made := outdir_made w;
     out_file := Document out |}.

(** The summary of no day at all. *)
Definition zero_summary : Summary :=
  {| days := 0;
     average_sentiment := zero;
     average_subjectivity := zero;
     label_counts := ZERO_COUNTS;
     trend := lit "insufficient_data";
     most_common_emotions := [] |}.

(** A [DayEmotion] as the analysis builds them. *)
Definition well_formed_day (d : DayEmotion) : Prop :=
  sentiment_label d ∈ LABELS
  /\ NoDup (dominant_emotions d)
  /\ Forall (fun tag => tag ∈ EMOTIONS) (dominant_emotions d)
  /\ (1 <= length (dominant_emotions d) <= 2)%nat.

(** The world after the calls [cs], which left the services in [x]. *)
Definition logged {Ext} (cs : list call) (x : Ext) (w : world Ext) : world Ext :=
  {| ext := x; calls := calls w ++ cs; outdir_made := outdir_made w;
     out_file := out_file w |}.

(** [answered translate cs x ts x']: called on the chunks [cs] one after the
    other, from the state [x] of the service, the translator has returned
    each time; [ts] are its answers and [x'] the state it left. *)
Inductive answered {Ext} (translate : str -> Ext -> Ext * outcome str) :
    list str -> Ext -> list str -> Ext -> Prop :=
  | answered_nil (x : Ext) : answered translate [] x [] x
  | answered_cons (c : str) (cs : list str) (x x1 x' : Ext) (t : str)
        (ts : list str) :
      translate c x = (x1, Return t) ->
      answered translate cs x1 ts x' ->
      answered translate (c :: cs) x (t :: ts) x'.

(** The line-break marker of the records. *)
Definition BR : str := lit "<br>".

(** [_norm_text] on the characters of a string. *)
Definition norm_chars (s : str) : str := replace_scan BR NEWLINE 0 s.

(** The day [d] is dated with the string [day]. *)
Definition dated (day : str) (d : DayEmotion) : Prop :=
  match date d with
  | JStr x => x = day
  | _ => False
  end.

#[global] Instance dated_dec (day : str) (d : DayEmotion) : Decision (dated day d).
Proof. unfold dated. destruct (date d); apply _. Defined.

(** ** The definitions at work *)

Section float_examples.
Example lit_0_2 : decimal 2 1 = S754_finite false 7205759403792794 (-55).
Proof. vm_compute. reflexivity. Qed.
Example lit_0_45 : decimal 45 2 = S754_finite false 8106479329266893 (-54).
Proof. vm_compute. reflexivity. Qed.
Example lit_0_12 : decimal 12 2 = S754_finite false 8646911284551352 (-56).
Proof. vm_compute. reflexivity. Qed.
Example lit_1 : one = S754_finite false 4503599627370496 (-52).
Proof. vm_compute. reflexivity. Qed.
Example round_0_1235 : py_round (decimal 1235 4) 3 = decimal 123 3.
Proof. vm_compute. reflexivity. Qed.
Example round_0_0005 : py_round (decimal 5 4) 3 = decimal 1 3.
Proof. vm_compute. reflexivity. Qed.
Example round_0_0015 : py_round (decimal 15 4) 3 = decimal 2 3.
Proof. vm_compute. reflexivity. Qed.
Example round_neg : py_round (fneg (decimal 1 4)) 3 = S754_zero true.
Proof. vm_compute. reflexivity. Qed.
Example round_0_1996 : py_round (decimal 1996 4) 3 = decimal 2 1.
Proof. vm_compute. reflexivity. Qed.
End float_examples.

Section text_examples.
Example replace_br :
  replace (lit "<br>") NEWLINE (lit "a<br>b<br><br>c<b") =
  [97; 10; 98; 10; 10; 99; 60; 98]%N.
Proof. reflexivity. Qed.
Example replace_overlap : replace (lit "aa") (lit "b") (lit "aaa") = lit "ba".
Proof. reflexivity. Qed.
Example strip_ex : strip (10 :: 32 :: lit "a b" ++ [12288; 10])%N = lit "a b".
Proof. reflexivity. Qed.
Example join_ex : join NEWLINE [lit "a"; []; lit "b"] = lit "a" ++ [10; 10]%N ++ lit "b".
Proof. reflexivity. Qed.
Example slice_ex : slice (lit "abcdef") 2 4 = lit "cd".
Proof. reflexivity. Qed.
Example slice_neg : slice (lit "abcdef") 0 (-2) = lit "abcd".
Proof. reflexivity. Qed.
End text_examples.

Section chunk_examples.
Example chunk_7_3 :
  _chunk_text (lit "abcdefg") 3 = Some [lit "abc"; lit "def"; lit "g"].
Proof. reflexivity. Qed.
Example chunk_empty : _chunk_text [] 3000 = Some [[]].
Proof. reflexivity. Qed.
Example chunk_exact : _chunk_text (lit "abc") 3 = Some [lit "abc"].
Proof. reflexivity. Qed.
Example chunk_zero_size : chunk_text_fuel 50 (lit "abc") 0 = None.
Proof. reflexivity. Qed.
End chunk_examples.

Section sum_examples.
(** The two ways of adding floats differ in the last bit of
    [0.5 + 0.68 + 0.68]. *)
Example sum_plain :
  sum_left_to_right [decimal 5 1; decimal 68 2; decimal 68 2]
  = S754_finite false 8376695306909124 (-52).
Proof. vm_compute. reflexivity. Qed.
Example sum_exact :
  sum_compensated [decimal 5 1; decimal 68 2; decimal 68 2]
  = S754_finite false 8376695306909123 (-52).
Proof. vm_compute. reflexivity. Qed.
End sum_examples.

(** ** Order and rounding of binary64 numbers *)

Section float_order.

Lemma SFcompare_antisym (x y : float) :
  SFcompare y x = CompOpp <$> SFcompare x y.
Proof.
  destruct x as [sx|sx| |sx mx ex], y as [sy|sy| |sy my ey];
    try destruct sx; try destruct sy; try reflexivity; simpl; f_equal;
    rewrite (Z.compare_antisym ey ex); destruct (ey ?= ex); simpl;
    try reflexivity; rewrite (Pos.compare_cont_antisym _ _ Eq);
    simpl; by rewrite ?CompOpp_involutive.
Qed.

Lemma flt_not_fge (x y : float) : flt x y = true -> fge x y = false.
Proof.
  unfold flt, fge, SFltb, SFleb. rewrite (SFcompare_antisym x y).
  by destruct (SFcompare x y) as [[]|].
Qed.

Lemma fgt_not_fle (x y : float) : fgt x y = true -> fle x y = false.
Proof.
  unfold fgt, fle, SFltb, SFleb. rewrite (SFcompare_antisym x y).
  by destruct (SFcompare x y) as [[]|].
Qed.

(** A number at or below a negative one is not at or above a positive
    one. *)
Lemma fle_negative_not_fge_positive (p : float) (m1 m2 : positive) (e1 e2 : Z) :
  fle p (S754_finite true m1 e1) = true ->
  fge p (S754_finite false m2 e2) = false.
Proof. by destruct p as [|[]| |[]]. Qed.

Lemma digits2_size (m : positive) : digits2_pos m = Pos.size m.
Proof. induction m; simpl; by rewrite ?IHm. Qed.

(** The mantissa of a binary64 number has at most 53 bits. *)
Lemma binary64_mantissa (s : bool) (m : positive) (e : Z) :
  is_binary64 (S754_finite s m e) = true -> Zpos m < 2 ^ 53.
Proof.
  unfold is_binary64, valid_binary, bounded, canonical_mantissa, fexp, SpecFloat.emin, prec, emax.
  intros [Hc _]%andb_prop. apply Z.eqb_eq in Hc.
  assert (Hd : Zpos (digits2_pos m) <= 53) by lia.
  rewrite digits2_size in Hd.
  pose proof (Pos.size_gt m) as Hgt.
  assert (Zpos m < Zpos (2 ^ Pos.size m)) by lia.
  rewrite Pos2Z.inj_pow in H.
  eapply Z.lt_le_trans; [exact H|].
  apply Z.pow_le_mono_r; lia.
Qed.

Lemma SFcompare_positive (m1 m2 : positive) (e1 e2 : Z) :
  SFcompare (S754_finite false m1 e1) (S754_finite false m2 e2) =
  Some match e1 ?= e2 with
       | Lt => Lt
       | Gt => Gt
       | Eq => (m1 ?= m2)%positive
       end.
Proof. reflexivity. Qed.

Lemma SFcompare_negative (m1 m2 : positive) (e1 e2 : Z) :
  SFcompare (S754_finite true m1 e1) (S754_finite true m2 e2) =
  Some match e1 ?= e2 with
       | Lt => Gt
       | Gt => Lt
       | Eq => CompOpp (m1 ?= m2)%positive
       end.
Proof. reflexivity. Qed.

(** A binary64 number strictly between [-1.0] and [1.0] has an exponent
    of at most [-52] and a magnitude of at most one. *)
Lemma magnitude_below_one (s : bool) (m : positive) (e : Z) :
  is_binary64 (S754_finite s m e) = true ->
  flt (S754_finite s m e) one = true ->
  flt (fneg one) (S754_finite s m e) = true ->
  e <= -52 /\ Zpos m <= 2 ^ (- e).
Proof.
  intros Hv Hlt Hgt. apply binary64_mantissa in Hv.
  assert (Hcmp : e < -52 \/ e = -52 /\ Zpos m < 4503599627370496).
  { destruct s.
    - clear Hlt. revert Hgt. unfold flt, SFltb.
      change (fneg one) with (S754_finite true 4503599627370496 (-52)).
      rewrite SFcompare_negative.
      destruct (Z.compare_spec (-52) e) as [He|He|He]; try discriminate;
        [|intros _; lia].
      destruct (Pos.compare_spec 4503599627370496 m) as [Hm|Hm|Hm];
        try discriminate.
      apply Pos2Z.pos_lt_pos in Hm. intros _. right. split; [lia|]. exact Hm.
    - clear Hgt. revert Hlt. unfold flt, SFltb.
      change one with (S754_finite false 4503599627370496 (-52)).
      rewrite SFcompare_positive.
      destruct (Z.compare_spec e (-52)) as [He|He|He]; try discriminate;
        [|intros _; lia].
      destruct (Pos.compare_spec m 4503599627370496) as [Hm|Hm|Hm];
        try discriminate.
      apply Pos2Z.pos_lt_pos in Hm. intros _. right. split; [lia|]. exact Hm. }
  destruct Hcmp as [He|[-> Hm]].
  - split; [lia|]. transitivity (2 ^ 53); [lia|]. apply Z.pow_le_mono_r; lia.
  - split; [lia|]. change (2 ^ (- -52)) with 4503599627370496. lia.
Qed.

Lemma div_half_even_bound (n d c : Z) :
  0 <= n -> 0 < d -> 0 <= c -> n <= c * d -> 0 <= div_half_even n d <= c.
Proof.
  intros Hn Hd Hc Hle. unfold div_half_even.
  pose proof (Z.div_mod n d ltac:(lia)) as Hdm.
  pose proof (Z.mod_pos_bound n d Hd) as Hr.
  pose proof (Z.div_pos n d Hn Hd) as Hq.
  assert (Hqc : n / d <= c) by (apply Z.div_le_upper_bound; lia).
  destruct (Z.eq_dec (n / d) c) as [Heq|Hne].
  - assert (n mod d = 0) by nia.
    rewrite H. destruct (Z.compare_spec (2 * 0) d); lia.
  - destruct (2 * (n mod d) ?= d); [destruct (Z.even (n / d))| |]; lia.
Qed.

End float_order.

Lemma milli_all_in_range : forallb milli_in_range (seq 0 1001) = true.
Proof. vm_compute. reflexivity. Qed.

Lemma of_scaled_range (s : bool) (k : Z) :
  0 <= k <= 1000 ->
  fle (fneg one) (of_scaled s k 3) = true /\ fle (of_scaled s k 3) one = true
  /\ is_binary64 (of_scaled s k 3) = true
  /\ (s = false -> fle zero (of_scaled s k 3) = true).
Proof.
  intros Hk.
  assert (Hin : In (Z.to_nat k) (seq 0 1001)) by (apply in_seq; lia).
  pose proof (proj1 (forallb_forall _ _) milli_all_in_range _ Hin) as Hall.
  unfold milli_in_range in Hall. rewrite Z2Nat.id in Hall by lia.
  cbn [forallb] in Hall.
  repeat match goal with
         | H : _ && _ = true |- _ => apply andb_prop in H as [? ?]
         end.
  destruct s; repeat split; done.
Qed.

Section literals.
Lemma float_0_2 : decimal 2 1 = S754_finite false 7205759403792794 (-55).
Proof. vm_compute. reflexivity. Qed.
Lemma float_0_45 : decimal 45 2 = S754_finite false 8106479329266893 (-54).
Proof. vm_compute. reflexivity. Qed.
Lemma float_0_15 : decimal 15 2 = S754_finite false 5404319552844595 (-55).
Proof. vm_compute. reflexivity. Qed.
Lemma float_0_12 : decimal 12 2 = S754_finite false 8646911284551352 (-56).
Proof. vm_compute. reflexivity. Qed.
Lemma float_1 : one = S754_finite false 4503599627370496 (-52).
Proof. vm_compute. reflexivity. Qed.
End literals.

Ltac float_literals :=
  rewrite ?float_0_2, ?float_0_45, ?float_0_15, ?float_0_12, ?float_1 in *;
  cbn [fneg SFopp negb] in *.

Section clamp.

(** [max(-1.0, min(1.0, x))] is [1.0], [-1.0], or [x] itself when [x] is
    strictly between the two.  A NaN is clamped to [1.0]. *)
Lemma clamp_polarity_cases (x : float) :
  let c := py_max (fneg one) (py_min one x) in
  c = one \/ c = fneg one
  \/ (c = x /\ flt x one = true /\ flt (fneg one) x = true).
Proof.
  unfold py_max, py_min, fgt. destruct (flt x one) eqn:H1.
  - destruct (SFltb (fneg one) x) eqn:H2; auto.
  - left. reflexivity.
Qed.

(** [max(0.0, min(1.0, x))] is [1.0], [0.0], or [x] itself when [x] is
    strictly between the two. *)
Lemma clamp_subjectivity_cases (x : float) :
  let c := py_max zero (py_min one x) in
  c = one \/ c = zero
  \/ (c = x /\ flt x one = true /\ flt zero x = true).
Proof.
  unfold py_max, py_min, fgt. destruct (flt x one) eqn:H1.
  - destruct (SFltb zero x) eqn:H2; auto.
  - left. reflexivity.
Qed.

Lemma clamp_nan : py_max (fneg one) (py_min one S754_nan) = one.
Proof. reflexivity. Qed.

(** Rounding a binary64 number strictly between [-1.0] and [1.0] to three
    decimals gives the float of [k / 1000] for some [k] up to 1000, with the
    sign of the number. *)
Lemma round_below_one (s : bool) (m : positive) (e : Z) :
  is_binary64 (S754_finite s m e) = true ->
  flt (S754_finite s m e) one = true ->
  flt (fneg one) (S754_finite s m e) = true ->
  exists k, 0 <= k <= 1000 /\ py_round (S754_finite s m e) 3 = of_scaled s k 3.
Proof.
  intros Hv H1 H2. destruct (magnitude_below_one s m e Hv H1 H2) as [He Hm].
  unfold py_round. rewrite (Z.max_r e 0), (Z.max_l (- e) 0) by lia.
  change (10 ^ Z.of_nat 3) with 1000. change (2 ^ 0) with 1.
  eexists. split; [|reflexivity].
  assert (0 < 2 ^ (- e)) by (apply Z.pow_pos_nonneg; lia).
  apply div_half_even_bound; lia.
Qed.

(** The stored polarity: in [-1, 1] and a number of three decimals. *)
Lemma round_clamped_polarity (x : float) :
  is_binary64 x = true ->
  let r := py_round (py_max (fneg one) (py_min one x)) 3 in
  fle (fneg one) r = true /\ fle r one = true
  /\ exists s k, 0 <= k <= 1000 /\ r = of_scaled s k 3.
Proof.
  intros Hv r. subst r.
  assert (Hk : exists s k, 0 <= k <= 1000
            /\ py_round (py_max (fneg one) (py_min one x)) 3 = of_scaled s k 3).
  { destruct (clamp_polarity_cases x) as [->|[->|(-> & H1 & H2)]].
    - exists false, 1000. split; [lia|]. vm_compute. reflexivity.
    - exists true, 1000. split; [lia|]. vm_compute. reflexivity.
    - destruct x as [s|s| |s m e]; try discriminate.
      + exists s, 0. split; [lia|]. reflexivity.
      + by destruct s.
      + destruct (round_below_one s m e Hv H1 H2) as (k & Hk & ->). eauto. }
  destruct Hk as (s & k & Hk & ->).
  destruct (of_scaled_range s k Hk) as (? & ? & _). eauto 10.
Qed.

(** The stored subjectivity: in [0, 1] and a number of three decimals. *)
Lemma round_clamped_subjectivity (x : float) :
  is_binary64 x = true ->
  let r := py_round (py_max zero (py_min one x)) 3 in
  fle zero r = true /\ fle r one = true
  /\ exists k, 0 <= k <= 1000 /\ r = of_scaled false k 3.
Proof.
  intros Hv r. subst r.
  assert (Hk : exists k, 0 <= k <= 1000
            /\ py_round (py_max zero (py_min one x)) 3 = of_scaled false k 3).
  { destruct (clamp_subjectivity_cases x) as [->|[->|(-> & H1 & H2)]].
    - exists 1000. split; [lia|]. vm_compute. reflexivity.
    - exists 0. split; [lia|]. reflexivity.
    - destruct x as [s|s| |s m e]; try discriminate.
      + by destruct s.
      + destruct s; [discriminate|].
        destruct (round_below_one false m e Hv H1) as (k & Hk & ->); eauto. }
  destruct Hk as (k & Hk & ->).
  destruct (of_scaled_range false k Hk) as (? & ? & _ & Hz).
  split; [by apply Hz|]. eauto.
Qed.

End clamp.

(** ** The chunker *)

Section chunker.

Lemma slice_inside {A} (l : list A) (a b : Z) :
  0 <= a -> a <= b -> b <= Z.of_nat (length l) ->
  slice l a b = take (Z.to_nat (b - a)) (drop (Z.to_nat a) l).
Proof.
  intros Ha Hab Hb. unfold slice, slice_bound.
  destruct (Z.ltb_spec a 0); [lia|].
  destruct (Z.ltb_spec b 0); [lia|].
  rewrite !Z.min_l by lia. reflexivity.
Qed.

(** The loop started at [start] with [chunks] collected returns [chunks]
    followed by pieces of the rest of the text. *)
Lemma chunk_loop_returns (text : str) (chunk_size : Z) :
  0 < chunk_size ->
  forall (fuel : nat) (start : Z) (chunks : list str),
    0 <= start <= Z.of_nat (length text) ->
    Z.of_nat (length text) - start <= Z.of_nat fuel ->
    exists rest,
      chunk_loop fuel text chunk_size start chunks = Some (chunks ++ rest)
      /\ concat rest = drop (Z.to_nat start) text
      /\ Forall (fun c => Z.of_nat (length c) <= chunk_size) rest.
Proof.
  intros Hpos fuel. induction fuel as [|fuel IH]; intros start chunks Hs Hf.
  - exists []. simpl. destruct (Z.ltb_spec start (Z.of_nat (length text))); [lia|].
    rewrite app_nil_r. split; [done|]. split; [|constructor].
    rewrite drop_ge by lia. done.
  - simpl. destruct (Z.ltb_spec start (Z.of_nat (length text))) as [Hlt|Hge].
    + set (end_ := Z.min (start + chunk_size) (Z.of_nat (length text))).
      assert (Hend : start < end_ /\ end_ <= Z.of_nat (length text)
                     /\ end_ - start <= chunk_size) by (unfold end_; lia).
      destruct (IH end_ (chunks ++ [slice text start end_])) as (rest & Hrun & Hcat & Hlen);
        [lia | lia |].
      exists (slice text start end_ :: rest).
      rewrite Hrun, <- app_assoc. split; [done|].
      rewrite slice_inside by lia. split.
      * simpl. rewrite Hcat.
        replace (Z.to_nat end_) with (Z.to_nat start + Z.to_nat (end_ - start))%nat by lia.
        rewrite <- drop_drop. apply take_drop.
      * constructor; [|done].
        rewrite length_take, length_drop. lia.
    + exists []. rewrite app_nil_r. split; [done|]. split; [|constructor].
      rewrite drop_ge by lia. done.
Qed.

(** With a maximum that is not positive the loop never ends on a text
    that is not empty: no amount of fuel gives a result. *)
Lemma chunk_loop_diverges (text : str) (chunk_size : Z) :
  chunk_size <= 0 -> (0 < length text)%nat ->
  forall (fuel : nat) (start : Z) (chunks : list str),
    start <= 0 -> chunk_loop fuel text chunk_size start chunks = None.
Proof.
  intros Hcs Hlen fuel. induction fuel as [|fuel IH]; intros start chunks Hs; simpl;
    destruct (Z.ltb_spec start (Z.of_nat (length text))); try lia; [done|].
  apply IH. lia.
Qed.

Lemma concat_prefix_slice {A} (chunks : list (list A)) (i : nat) (c : list A) :
  chunks !! i = Some c ->
  c = take (length c) (drop (length (concat (take i chunks))) (concat chunks)).
Proof.
  revert i. induction chunks as [|c0 chunks IH]; intros [|i] Hi; simplify_eq/=.
  - by rewrite drop_0, take_app_length.
  - rewrite length_app, <- drop_drop, drop_app_length. by apply IH.
Qed.

(** With a positive maximum the chunker returns, the chunks concatenate to
    the text and none is longer than the maximum. *)
Lemma chunk_text_returns (text : str) (chunk_size : Z) :
  0 < chunk_size ->
  exists chunks : list str,
    _chunk_text text chunk_size = Some chunks
    /\ concat chunks = text
    /\ Forall (fun c => Z.of_nat (length c) <= chunk_size) chunks.
Proof.
  intros Hpos. unfold _chunk_text, chunk_text_fuel.
  destruct (Z.leb_spec (Z.of_nat (length text)) chunk_size) as [Hle|Hgt].
  - exists [text]. split; [done|]. split; [simpl; by rewrite app_nil_r|].
    by repeat constructor.
  - destruct (chunk_loop_returns text chunk_size Hpos (length text) 0 [])
      as (rest & Hrun & Hcat & Hlen); [lia | lia |].
    simpl in Hrun. exists rest. split; [done|]. split; [by rewrite Hcat, drop_0|].
    done.
Qed.

End chunker.

(** C5. For every string and every positive maximum, [_chunk_text] returns
    chunks whose concatenation is the string, each at most the maximum long,
    each the slice of the string that starts where the chunks before it end
    (contiguous, not overlapping); a string no longer than the maximum, the
    empty string included, gives the single chunk that is the string. *)
Theorem chunk_text_partition (text : str) (chunk_size : Z) :
  0 < chunk_size ->
  exists chunks : list str,
    _chunk_text text chunk_size = Some chunks
    /\ concat chunks = text
    /\ Forall (fun c => Z.of_nat (length c) <= chunk_size) chunks
    /\ (forall (i : nat) (c : str), chunks !! i = Some c ->
          c = take (length c) (drop (length (concat (take i chunks))) text))
    /\ (Z.of_nat (length text) <= chunk_size -> chunks = [text]).
Proof.
  intros Hpos.
  destruct (chunk_text_returns text chunk_size Hpos) as (chunks & Hrun & Hcat & Hlen).
  exists chunks. split_and!; try done.
  - intros i c Hc. rewrite <- Hcat. by apply concat_prefix_slice.
  - intros Hle. revert Hrun. unfold _chunk_text, chunk_text_fuel.
    destruct (Z.leb_spec (Z.of_nat (length text)) chunk_size); [|lia].
    by intros [= <-].
Qed.

Lemma chunk_text_partition_witness :
  0 < 3 /\
  exists chunks : list str,
    _chunk_text (lit "abcdefg") 3 = Some chunks
    /\ concat chunks = lit "abcdefg"
    /\ Forall (fun c => Z.of_nat (length c) <= 3) chunks
    /\ (forall (i : nat) (c : str), chunks !! i = Some c ->
          c = take (length c) (drop (length (concat (take i chunks))) (lit "abcdefg")))
    /\ (Z.of_nat (length (lit "abcdefg")) <= 3 -> chunks = [lit "abcdefg"]).
Proof. split; [lia | apply (chunk_text_partition (lit "abcdefg") 3); lia]. Defined.

(** ** The classifier *)

(** C4. The label depends on the polarity alone: at or above [0.2] it is
    [positive], at or below [-0.2] it is [negative], strictly between the two
    it is [neutral]; at the two thresholds themselves it is not [neutral]. *)
Theorem to_label_bands (p : float) :
  (fge p (decimal 2 1) = true -> _to_label p = lit "positive")
  /\ (fle p (fneg (decimal 2 1)) = true -> _to_label p = lit "negative")
  /\ (fgt p (fneg (decimal 2 1)) = true -> flt p (decimal 2 1) = true ->
      _to_label p = lit "neutral")
  /\ _to_label (decimal 2 1) = lit "positive"
  /\ _to_label (fneg (decimal 2 1)) = lit "negative"
  /\ lit "positive" <> lit "neutral"
  /\ lit "negative" <> lit "neutral".
Proof.
  unfold _to_label. split_and!; try done.
  - by intros ->.
  - intros Hle. float_literals.
    by rewrite (fle_negative_not_fge_positive p _ _ _ _ Hle), Hle.
  - intros Hgt Hlt. by rewrite (flt_not_fge _ _ Hlt), (fgt_not_fle _ _ Hgt).
Qed.

Lemma to_label_bands_witness :
  _to_label (decimal 5 1) = lit "positive"
  /\ _to_label (fneg (decimal 5 1)) = lit "negative"
  /\ _to_label (decimal 1999 4) = lit "neutral".
Proof.
  split; [|split].
  - destruct (to_label_bands (decimal 5 1)) as (H & _).
    apply H. vm_compute. reflexivity.
  - destruct (to_label_bands (fneg (decimal 5 1))) as (_ & H & _).
    apply H. vm_compute. reflexivity.
  - destruct (to_label_bands (decimal 1999 4)) as (_ & _ & H & _).
    apply H; vm_compute; reflexivity.
Defined.

(** C3. The dominant emotions follow the cascade, the first test that
    holds deciding: [p >= 0.45] gives joy and confidence when [s >= 0.45] and
    calm and confidence otherwise; else [p >= 0.15] gives calm and
    confidence; else [p <= -0.45] gives frustration and anxiety when
    [s >= 0.45] and anxiety and calm otherwise; else [p <= -0.15] gives
    anxiety and calm; else calm.  So (0.45, 0.45) gives joy and confidence,
    (0.44, 0.9) gives calm and confidence, and 0.18 is labelled neutral with
    emotions calm and confidence. *)
Theorem to_emotions_cascade (p s : float) :
  (fge p (decimal 45 2) = true ->
     _to_emotions p s =
       if fge s (decimal 45 2) then [lit "joy"; lit "confidence"]
       else [lit "calm"; lit "confidence"])
  /\ (fge p (decimal 45 2) = false -> fge p (decimal 15 2) = true ->
        _to_emotions p s = [lit "calm"; lit "confidence"])
  /\ (fge p (decimal 45 2) = false -> fge p (decimal 15 2) = false ->
      fle p (fneg (decimal 45 2)) = true ->
        _to_emotions p s =
          if fge s (decimal 45 2) then [lit "frustration"; lit "anxiety"]
          else [lit "anxiety"; lit "calm"])
  /\ (fge p (decimal 45 2) = false -> fge p (decimal 15 2) = false ->
      fle p (fneg (decimal 45 2)) = false ->
      fle p (fneg (decimal 15 2)) = true ->
        _to_emotions p s = [lit "anxiety"; lit "calm"])
  /\ (fge p (decimal 45 2) = false -> fge p (decimal 15 2) = false ->
      fle p (fneg (decimal 45 2)) = false ->
      fle p (fneg (decimal 15 2)) = false ->
        _to_emotions p s = [lit "calm"])
  /\ _to_emotions (decimal 45 2) (decimal 45 2) = [lit "joy"; lit "confidence"]
  /\ _to_emotions (decimal 44 2) (decimal 9 1) = [lit "calm"; lit "confidence"]
  /\ (forall s', _to_emotions (decimal 18 2) s' = [lit "calm"; lit "confidence"])
  /\ _to_label (decimal 18 2) = lit "neutral".
Proof.
  unfold _to_emotions. split_and!.
  - by intros ->.
  - by intros -> ->.
  - by intros -> -> ->.
  - by intros -> -> -> ->.
  - by intros -> -> -> ->.
  - vm_compute. reflexivity.
  - vm_compute. reflexivity.
  - intros s'.
    replace (fge (decimal 18 2) (decimal 45 2)) with false by (vm_compute; reflexivity).
    replace (fge (decimal 18 2) (decimal 15 2)) with true by (vm_compute; reflexivity).
    reflexivity.
  - vm_compute. reflexivity.
Qed.

Lemma to_emotions_cascade_witness :
  _to_emotions (decimal 9 1) (decimal 2 1) = [lit "calm"; lit "confidence"]
  /\ _to_emotions (decimal 3 1) (decimal 9 1) = [lit "calm"; lit "confidence"]
  /\ _to_emotions (fneg (decimal 7 1)) (decimal 9 1) = [lit "frustration"; lit "anxiety"]
  /\ _to_emotions (fneg (decimal 2 1)) (decimal 9 1) = [lit "anxiety"; lit "calm"]
  /\ _to_emotions (decimal 1 1) (decimal 9 1) = [lit "calm"].
Proof.
  split_and!.
  - destruct (to_emotions_cascade (decimal 9 1) (decimal 2 1)) as (H & _).
    rewrite H; vm_compute; reflexivity.
  - destruct (to_emotions_cascade (decimal 3 1) (decimal 9 1)) as (_ & H & _).
    apply H; vm_compute; reflexivity.
  - destruct (to_emotions_cascade (fneg (decimal 7 1)) (decimal 9 1)) as (_ & _ & H & _).
    rewrite H; vm_compute; reflexivity.
  - destruct (to_emotions_cascade (fneg (decimal 2 1)) (decimal 9 1)) as (_ & _ & _ & H & _).
    apply H; vm_compute; reflexivity.
  - destruct (to_emotions_cascade (decimal 1 1) (decimal 9 1)) as (_ & _ & _ & _ & H & _).
    apply H; vm_compute; reflexivity.
Defined.

(** ** Analysis of one record *)

Section analyze.

Context {Ext : Type}.
Variable translate : str -> Ext -> Ext * outcome str.
Variable sentiment : str -> Ext -> Ext * outcome (float * float).

Local Abbreviation analyze := (analyze_record translate sentiment).
Local Abbreviation translated_or_original joined :=
  (try_except (_translate_ja_to_en translate joined) (fun _ => ret joined)).

Lemma length_zero_nil {A} (l : list A) : Nat.eqb (length l) 0 = true <-> l = [].
Proof. destruct l; simpl; split; intros; done. Qed.

(** A record whose text raises aborts the analysis with no call made. *)
Lemma analyze_record_raises (record : gmap str json) (e : exn) (w : world Ext) :
  joined_text record = inl e -> analyze record w = (w, Raise e).
Proof. intros H. unfold analyze_record, bind. by rewrite H. Qed.

Lemma analyze_record_no_text (record : gmap str json) (w : world Ext) :
  joined_text record = inr [] ->
  analyze record w = (w, Return (neutral_day (record_date record))).
Proof. intros H. unfold analyze_record, bind. by rewrite H. Qed.

Lemma analyze_record_with_text (record : gmap str json) (joined : str)
    (w : world Ext) :
  joined_text record = inr joined -> joined <> [] ->
  analyze record w =
  bind (translated_or_original joined)
       (score_text sentiment (record_date record)) w.
Proof.
  intros H Hne. unfold analyze_record. unfold bind at 1. rewrite H. simpl.
  destruct joined; done.
Qed.

Lemma score_text_returns (date : json) (text : str) (w : world Ext)
    (x : Ext) (p s : float) :
  sentiment text (ext w) = (x, Return (p, s)) ->
  score_text sentiment date text w =
  (log_call (Sentiment text) x w, Return (scored_day date p s)).
Proof. intros H. unfold score_text, bind, call_sentiment. by rewrite H. Qed.

(** What a returned [DayEmotion] is. *)
Lemma analyze_record_inv (record : gmap str json) (w w' : world Ext)
    (d : DayEmotion) :
  analyze record w = (w', Return d) ->
  (joined_text record = inr [] /\ w' = w
   /\ d = neutral_day (record_date record))
  \/ exists joined w1 translated x p s,
      joined_text record = inr joined /\ joined <> []
      /\ translated_or_original joined w = (w1, Return translated)
      /\ sentiment translated (ext w1) = (x, Return (p, s))
      /\ w' = log_call (Sentiment translated) x w1
      /\ d = scored_day (record_date record) p s.
Proof.
  intros Hrun. destruct (joined_text record) as [e|joined] eqn:Hj.
  - rewrite (analyze_record_raises _ _ _ Hj) in Hrun. done.
  - destruct (decide (joined = [])) as [->|Hne].
    + rewrite (analyze_record_no_text _ _ Hj) in Hrun. left. simplify_eq.
      split_and!; done.
    + right. rewrite (analyze_record_with_text _ _ _ Hj Hne) in Hrun.
      unfold bind at 1 in Hrun.
      destruct (translated_or_original joined w) as [w1 [t|e|]] eqn:Ht;
        try done.
      destruct (sentiment t (ext w1)) as [x [[p s]|e|]] eqn:Hs;
        [|unfold score_text, bind, call_sentiment in Hrun;
          rewrite Hs in Hrun; done..].
      rewrite (score_text_returns _ _ _ _ _ _ Hs) in Hrun.
      simplify_eq. exists joined, w1, t, x, p, s. split_and!; done.
Qed.

End analyze.

Section fallback.

Context {Ext : Type}.
Variable translate : str -> Ext -> Ext * outcome str.
Variable sentiment : str -> Ext -> Ext * outcome (float * float).

(** When the translation raises, the original text is what is scored. *)
Lemma translation_raise_scores_original (record : gmap str json) (joined : str)
    (w w1 : world Ext) (e : exn) :
  joined_text record = inr joined -> joined <> [] ->
  _translate_ja_to_en translate joined w = (w1, Raise e) ->
  analyze_record translate sentiment record w =
  score_text sentiment (record_date record) joined w1.
Proof.
  intros Hj Hne Ht. rewrite (analyze_record_with_text _ _ _ _ _ Hj Hne).
  unfold bind at 1, try_except. by rewrite Ht.
Qed.

Lemma for_each_first_raises {A B} (f : A -> M Ext B) (x : A) (xs : list A)
    (w w1 : world Ext) (e : exn) :
  f x w = (w1, Raise e) -> for_each f (x :: xs) w = (w1, Raise e).
Proof. intros H. simpl. unfold bind. by rewrite H. Qed.

(** A translator that raises on every chunk makes the translation of any
    text raise, at its first chunk. *)
Lemma translator_down (text : str) (w : world Ext) :
  (forall chunk x, exists x' e, translate chunk x = (x', Raise e)) ->
  exists w1 e, _translate_ja_to_en translate text w = (w1, Raise e).
Proof.
  intros Hdown. unfold _translate_ja_to_en.
  destruct (chunk_text_returns text 3000) as (chunks & Hc & Hcat & _); [lia|].
  rewrite Hc. unfold bind at 1. simpl.
  destruct chunks as [|c chunks].
  { simpl in Hcat. subst text. vm_compute in Hc. discriminate. }
  destruct (Hdown c (ext w)) as (x' & e & Hx).
  exists (log_call (Translate c) x' w), e.
  unfold bind. rewrite (for_each_first_raises _ c chunks w (log_call (Translate c) x' w) e);
    [done|]. unfold call_translate. by rewrite Hx.
Qed.

End fallback.

(** C6. A record whose four text fields normalise, join and strip to the
    empty string gives score 0.0, label neutral, subjectivity 0.0 and the one
    emotion calm, and the world is left as it was: no call to the translator
    or to the sentiment library is logged, whatever those two would do. *)
Theorem empty_record_short_circuit {Ext : Type}
    (translate : str -> Ext -> Ext * outcome str)
    (sentiment : str -> Ext -> Ext * outcome (float * float))
    (record : gmap str json) (w : world Ext) :
  joined_text record = inr [] ->
  analyze_record translate sentiment record w =
    (w, Return {| date := record_date record;
                  sentiment_score := zero;
                  sentiment_label := lit "neutral";
                  subjectivity := zero;
                  dominant_emotions := [lit "calm"] |})
  /\ calls (fst (analyze_record translate sentiment record w)) = calls w
  /\ ext (fst (analyze_record translate sentiment record w)) = ext w.
Proof.
  intros H. rewrite (analyze_record_no_text translate sentiment record w H). done.
Qed.

Lemma empty_record_short_circuit_witness :
  let record :=
    record_of [(lit "date", JStr (lit "2024-05-01")); (lit "experience", JNull);
               (lit "reflection", JStr (lit "  <br> "))] in
  joined_text record = inr []
  /\ analyze_record translate_down sentiment_down record world0 =
       (world0, Return (neutral_day (JStr (lit "2024-05-01")))).
Proof.
  intros record.
  assert (H : joined_text record = inr []) by (vm_compute; reflexivity).
  split; [exact H|].
  destruct (empty_record_short_circuit translate_down sentiment_down record world0 H)
    as [Hrun _].
  rewrite Hrun. vm_compute. reflexivity.
Defined.

(** C7. For a record with text, when the translation of the whole text
    raises, at whatever chunk, the analysis goes on with the original text:
    it is what scoring the original text directly is, and when the sentiment
    library answers the analysis returns the [DayEmotion] of that answer. *)
Theorem translation_failure_falls_back {Ext : Type}
    (translate : str -> Ext -> Ext * outcome str)
    (sentiment : str -> Ext -> Ext * outcome (float * float))
    (record : gmap str json) (joined : str) (w w1 : world Ext) (e : exn) :
  joined_text record = inr joined -> joined <> [] ->
  _translate_ja_to_en translate joined w = (w1, Raise e) ->
  analyze_record translate sentiment record w =
    score_text sentiment (record_date record) joined w1
  /\ forall x p s,
       sentiment joined (ext w1) = (x, Return (p, s)) ->
       analyze_record translate sentiment record w =
         (log_call (Sentiment joined) x w1,
          Return (scored_day (record_date record) p s)).
Proof.
  intros Hj Hne Ht.
  pose proof (translation_raise_scores_original translate sentiment
                record joined w w1 e Hj Hne Ht) as Heq.
  split; [exact Heq|]. intros x p s Hs. rewrite Heq.
  by apply score_text_returns.
Qed.

Lemma translation_failure_falls_back_witness :
  let record := record_of [(lit "experience", JStr (lit "good day"))] in
  let w1 := log_call (Translate (lit "good day")) tt world0 in
  analyze_record translate_down (sentiment_const (decimal 5 1) (decimal 6 1))
                 record world0 =
    (log_call (Sentiment (lit "good day")) tt w1,
     Return (scored_day (JStr []) (decimal 5 1) (decimal 6 1))).
Proof.
  intros record w1.
  destruct (translation_failure_falls_back translate_down
              (sentiment_const (decimal 5 1) (decimal 6 1))
              record (lit "good day") world0 w1 (ServiceError 503)) as [_ H].
  - vm_compute. reflexivity.
  - discriminate.
  - vm_compute. reflexivity.
  - apply H. reflexivity.
Defined.

(** C9. For a record with text, whatever binary64 pair the sentiment
    library returns, the analysis stores the clamped scores rounded to three
    decimals: the score is a float of [k / 1000] within [-1, 1], the
    subjectivity one within [0, 1], and the label and the emotions are those
    of the clamped scores before rounding. *)
Theorem scores_clamped_then_rounded {Ext : Type}
    (translate : str -> Ext -> Ext * outcome str)
    (sentiment : str -> Ext -> Ext * outcome (float * float))
    (record : gmap str json) (joined translated : str) (w w1 : world Ext)
    (x : Ext) (p s : float) :
  joined_text record = inr joined -> joined <> [] ->
  try_except (_translate_ja_to_en translate joined) (fun _ => ret joined) w
    = (w1, Return translated) ->
  sentiment translated (ext w1) = (x, Return (p, s)) ->
  is_binary64 p = true -> is_binary64 s = true ->
  exists d : DayEmotion,
    analyze_record translate sentiment record w
      = (log_call (Sentiment translated) x w1, Return d)
    /\ sentiment_score d = py_round (py_max (fneg one) (py_min one p)) 3
    /\ subjectivity d = py_round (py_max zero (py_min one s)) 3
    /\ fle (fneg one) (sentiment_score d) = true
    /\ fle (sentiment_score d) one = true
    /\ fle zero (subjectivity d) = true
    /\ fle (subjectivity d) one = true
    /\ (exists sg k, 0 <= k <= 1000 /\ sentiment_score d = of_scaled sg k 3)
    /\ (exists k, 0 <= k <= 1000 /\ subjectivity d = of_scaled false k 3)
    /\ sentiment_label d = _to_label (py_max (fneg one) (py_min one p))
    /\ dominant_emotions d =
         _to_emotions (py_max (fneg one) (py_min one p))
                      (py_max zero (py_min one s)).
Proof.
  intros Hj Hne Ht Hs Hp Hsv.
  exists (scored_day (record_date record) p s). split.
  - rewrite (analyze_record_with_text _ _ _ _ _ Hj Hne).
    unfold bind at 1. rewrite Ht. by apply score_text_returns.
  - destruct (round_clamped_polarity p Hp) as (? & ? & ?).
    destruct (round_clamped_subjectivity s Hsv) as (? & ? & ?).
    split_and!; done.
Qed.

Lemma scores_clamped_then_rounded_witness :
  let record := record_of [(lit "experience", JStr (lit "good day"))] in
  let w1 := log_call (Translate (lit "good day")) tt world0 in
  exists d : DayEmotion,
    analyze_record translate_echo
        (sentiment_const (decimal 25 1) (fneg (decimal 25 2))) record world0
      = (log_call (Sentiment (lit "good day")) tt w1, Return d)
    /\ sentiment_score d = one /\ subjectivity d = zero.
Proof.
  intros record w1.
  destruct (scores_clamped_then_rounded translate_echo
              (sentiment_const (decimal 25 1) (fneg (decimal 25 2)))
              record (lit "good day") (lit "good day") world0 w1 tt
              (decimal 25 1) (fneg (decimal 25 2)))
    as (d & Hrun & Hscore & Hsubj & _).
  - vm_compute. reflexivity.
  - discriminate.
  - vm_compute. reflexivity.
  - reflexivity.
  - vm_compute. reflexivity.
  - vm_compute. reflexivity.
  - exists d. split; [exact Hrun|]. rewrite Hscore, Hsubj.
    split; vm_compute; reflexivity.
Defined.

(** ** The stable sort *)

Section stable_sort_facts.

Context {A : Type} (ahead : A -> A -> bool).

Lemma insert_sorted_perm (x : A) (l : list A) :
  insert_sorted ahead x l ≡ₚ x :: l.
Proof.
  induction l as [|y l IH]; simpl; [done|].
  destruct (ahead y x); [|done]. rewrite IH. apply Permutation_swap.
Qed.

Lemma stable_sort_perm (l : list A) : stable_sort ahead l ≡ₚ l.
Proof.
  induction l as [|x l IH]; simpl; [done|].
  by rewrite insert_sorted_perm, IH.
Qed.

Lemma stable_sort_length (l : list A) : length (stable_sort ahead l) = length l.
Proof. by rewrite stable_sort_perm. Qed.

(** Stability: among the items of a class no member of which has to come
    ahead of another, the order of arrival is kept. *)
Lemma insert_sorted_filter (P : A -> Prop) `{!forall a, Decision (P a)}
    (x : A) (l : list A) :
  (forall a b, P a -> P b -> ahead a b = false) ->
  filter P (insert_sorted ahead x l) = filter P (x :: l).
Proof.
  intros Hclass. induction l as [|y l IH]; simpl; [done|].
  destruct (ahead y x) eqn:Hyx; [|done].
  rewrite (filter_cons _ y), IH, !(filter_cons _ x), (filter_cons _ y).
  destruct (decide (P y)) as [Hy|Hy], (decide (P x)) as [Hx|Hx]; try done.
  by rewrite (Hclass y x Hy Hx) in Hyx.
Qed.

Lemma stable_sort_filter (P : A -> Prop) `{!forall a, Decision (P a)}
    (l : list A) :
  (forall a b, P a -> P b -> ahead a b = false) ->
  filter P (stable_sort ahead l) = filter P l.
Proof.
  intros Hclass. induction l as [|x l IH]; simpl; [done|].
  rewrite insert_sorted_filter by done. by rewrite !filter_cons, IH.
Qed.

(** Order: when [ahead] is a strict weak order, no item of the result has
    to come ahead of an earlier one. *)
Hypothesis ahead_asym : forall a b, ahead a b = true -> ahead b a = false.
Hypothesis ahead_cotrans :
  forall a b c, ahead a c = true -> ahead a b = true \/ ahead b c = true.



End stable_sort_facts.

Section pairs_in_order.

Context {A : Type}.



End pairs_in_order.

Lemma StronglySorted_lookups {A : Type} (R : A -> A -> Prop) (l : list A)
    (i j : nat) (a b : A) :
  StronglySorted R l -> (i < j)%nat -> l !! i = Some a -> l !! j = Some b -> R a b.
Proof.
  intros Hs. revert i j. induction Hs as [|x l Hs IH Hx]; intros i j Hij Hi Hj; [done|].
  destruct i as [|i], j as [|j]; simplify_eq/=; try lia.
  - rewrite Forall_forall in Hx. apply Hx. by eapply list_elem_of_lookup_2.
  - apply (IH i j); [lia|done..].
Qed.



(** ** The tallies of [summarize] *)

Section emotion_tally.

Lemma occurrences_snoc (k e : str) (tags : list str) :
  occurrences k (tags ++ [e]) =
  if decide (e = k) then S (occurrences k tags) else occurrences k tags.
Proof.
  unfold occurrences. rewrite filter_app, length_app, filter_cons, filter_nil.
  destruct (decide (e = k)); simpl; lia.
Qed.

Lemma occurrences_none (k : str) (tags : list str) :
  k ∉ tags -> occurrences k tags = 0%nat.
Proof.
  intros Hk. unfold occurrences. induction tags as [|t tags IH]; [done|].
  rewrite filter_cons. destruct (decide (t = k)) as [->|Hne].
  - destruct Hk. apply list_elem_of_here.
  - apply IH. intros Hin. apply Hk. by apply list_elem_of_further.
Qed.


Lemma keys_of_snoc (tags : list str) (e : str) :
  keys_of (tags ++ [e]) =
  if decide (e ∈ keys_of tags) then keys_of tags else keys_of tags ++ [e].
Proof. unfold keys_of. by rewrite fold_left_app. Qed.

Lemma count_emotions_snoc (tags : list str) (e : str) :
  count_emotions (tags ++ [e]) = dict_incr e (count_emotions tags).
Proof. unfold count_emotions. by rewrite fold_left_app. Qed.

Lemma keys_of_elem (tags : list str) (k : str) : k ∈ keys_of tags <-> k ∈ tags.
Proof.
  induction tags as [|e tags IH] using rev_ind; [done|].
  rewrite keys_of_snoc, elem_of_app, list_elem_of_singleton.
  destruct (decide (e ∈ keys_of tags)) as [He|He].
  - rewrite IH. split; [auto|]. intros [?| ->]; [done|]. by apply IH.
  - rewrite elem_of_app, list_elem_of_singleton, IH. done.
Qed.

Lemma keys_of_NoDup (tags : list str) : NoDup (keys_of tags).
Proof.
  induction tags as [|e tags IH] using rev_ind; [constructor|].
  rewrite keys_of_snoc. destruct (decide (e ∈ keys_of tags)) as [He|He]; [done|].
  apply NoDup_app. split_and!; [done| |apply NoDup_singleton].
  intros x Hx ->%list_elem_of_singleton. done.
Qed.

(** Incrementing the count of [e] in a dict with distinct keys. *)
Lemma dict_incr_map (g : str -> nat) (ks : list str) (e : str) :
  NoDup ks ->
  dict_incr e (map (fun k => (k, g k)) ks) =
  map (fun k => (k, if decide (k = e) then S (g k) else g k)) ks
  ++ (if decide (e ∈ ks) then [] else [(e, 1%nat)]).
Proof.
  induction 1 as [|k ks Hk Hnd IH]; simpl.
  { first [done | by rewrite decide_False by apply not_elem_of_nil]. }
  destruct (decide (k = e)) as [->|Hne].
  - rewrite decide_True by apply list_elem_of_here. rewrite app_nil_r.
    f_equal. apply map_ext_in. intros k' Hk'%list_elem_of_In.
    rewrite decide_False; [done|]. by intros ->.
  - rewrite IH. simpl. f_equal. f_equal.
    destruct (decide (e ∈ ks)) as [Hin|Hin].
    + by rewrite decide_True by by apply list_elem_of_further.
    + rewrite decide_False; [done|].
      intros [?|?]%elem_of_cons; done.
Qed.

(** The tally in closed form: the distinct tags in the order of their
    first occurrence, each with the number of its occurrences. *)
Lemma count_emotions_closed (tags : list str) :
  count_emotions tags = map (fun k => (k, occurrences k tags)) (keys_of tags).
Proof.
  induction tags as [|e tags IH] using rev_ind; [done|].
  rewrite count_emotions_snoc, IH, dict_incr_map by apply keys_of_NoDup.
  rewrite keys_of_snoc.
  assert (Hmap : map (fun k => (k, if decide (k = e) then S (occurrences k tags)
                                 else occurrences k tags)) (keys_of tags)
                 = map (fun k => (k, occurrences k (tags ++ [e]))) (keys_of tags)).
  { apply map_ext. intros k. rewrite occurrences_snoc.
    destruct (decide (k = e)) as [->|?].
    - by rewrite decide_True.
    - by rewrite decide_False by by intros ->. }
  rewrite Hmap. destruct (decide (e ∈ keys_of tags)) as [He|He].
  - by rewrite app_nil_r.
  - rewrite map_app. simpl. rewrite occurrences_snoc, decide_True by done.
    rewrite occurrences_none; [done|]. by rewrite <- keys_of_elem.
Qed.


Lemma count_emotions_elem (tags : list str) (k : str) (v : nat) :
  (k, v) ∈ count_emotions tags <-> k ∈ tags /\ v = occurrences k tags.
Proof.
  rewrite count_emotions_closed, list_elem_of_fmap. split.
  - intros (k' & [= -> ->] & Hin). split; [by apply keys_of_elem|done].
  - intros [Hin ->]. exists k. split; [done|by apply keys_of_elem].
Qed.






End emotion_tally.

Section label_tally.

Lemma zero_counts_lookup (l : str) :
  ZERO_COUNTS !! l = if decide (l ∈ LABELS) then Some 0%nat else None.
Proof.
  destruct (decide (l ∈ LABELS)) as [Hin|Hnot].
  - unfold LABELS in Hin. rewrite !elem_of_cons in Hin.
    destruct Hin as [->|[->|[->|Hnil]]]; [by vm_compute..|].
    by apply not_elem_of_nil in Hnil.
  - unfold ZERO_COUNTS. rewrite !lookup_insert_ne, lookup_empty; [done|..];
      intros <-; apply Hnot; unfold LABELS; rewrite !elem_of_cons; auto.
Qed.

Lemma days_labelled_cons (l : str) (d : DayEmotion) (ds : list DayEmotion) :
  days_labelled l (d :: ds) =
  if decide (sentiment_label d = l) then S (days_labelled l ds)
  else days_labelled l ds.
Proof.
  unfold days_labelled. rewrite filter_cons.
  by destruct (decide (sentiment_label d = l)).
Qed.

Lemma tags_seen_cons (d : DayEmotion) (ds : list DayEmotion) :
  tags_seen (d :: ds) = dominant_emotions d ++ tags_seen ds.
Proof. reflexivity. Qed.

(** The loop returns when every label is a key of the counts; each count
    has then grown by the number of days with that label, and the emotion
    tally has been fed the tags of all days in order. *)
Lemma tally_returns (ds : list DayEmotion) :
  forall (counts : gmap str nat) (emotions : list (str * nat)),
    Forall (fun d => is_Some (counts !! sentiment_label d)) ds ->
    exists counts',
      tally ds counts emotions =
        inr (counts',
             fold_left (fun c e => dict_incr e c) (tags_seen ds) emotions)
      /\ forall l, counts' !! l =
                   (fun n => (n + days_labelled l ds)%nat) <$> counts !! l.
Proof.
  induction ds as [|d ds IH]; intros counts emotions Hok.
  { exists counts. split; [done|]. intros l.
    destruct (counts !! l); simpl; [f_equal; unfold days_labelled; simpl; lia|done]. }
  apply Forall_cons in Hok as [[n Hn] Hok]. simpl. rewrite Hn.
  destruct (IH (<[sentiment_label d := S n]> counts)
               (fold_left (fun c e => dict_incr e c) (dominant_emotions d) emotions))
    as (counts' & Hrun & Hlook).
  { eapply Forall_impl; [exact Hok|]. intros d' Hd'. simpl in Hd'.
    by apply lookup_insert_is_Some'; right. }
  exists counts'. split.
  - by rewrite Hrun, tags_seen_cons, fold_left_app.
  - intros l. rewrite Hlook, days_labelled_cons, lookup_insert.
    destruct (decide (sentiment_label d = l)) as [<-|Hne].
    + rewrite Hn. simpl. f_equal. lia.
    + done.
Qed.

(** The loop stops with a [KeyError] at the first day whose label is not
    a key of the counts. *)
Lemma tally_raises (ds : list DayEmotion) :
  forall (counts : gmap str nat) (emotions : list (str * nat)),
    Exists (fun d => counts !! sentiment_label d = None) ds ->
    exists d, d ∈ ds /\ counts !! sentiment_label d = None
              /\ tally ds counts emotions = inl (KeyError (sentiment_label d)).
Proof.
  induction ds as [|d ds IH]; intros counts emotions Hbad.
  { by apply Exists_nil in Hbad. }
  simpl. destruct (counts !! sentiment_label d) as [n|] eqn:Hn.
  - apply Exists_cons in Hbad as [Hbad|Hbad]; [congruence|].
    destruct (IH (<[sentiment_label d := S n]> counts)
                 (fold_left (fun c e => dict_incr e c) (dominant_emotions d) emotions))
      as (d' & Hin & Hnone & Hrun).
    { eapply Exists_impl; [exact Hbad|]. intros d' Hd'. simpl in Hd'.
      rewrite lookup_insert_ne; [done|]. intros Heq. congruence. }
    exists d'. split; [by apply list_elem_of_further|]. split; [|done].
    rewrite lookup_insert_ne in Hnone; [done|]. intros Heq.
    rewrite <- Heq, lookup_insert_eq in Hnone. done.
  - exists d. split; [apply list_elem_of_here|]. done.
Qed.

End label_tally.

(** What [summarize] returns on days whose labels are among the three. *)
Lemma summarize_returns {builtins : Builtins} (ds : list DayEmotion) :
  Forall (fun d => sentiment_label d ∈ LABELS) ds ->
  exists s : Summary,
    summarize ds = inr s
    /\ days s = length ds
    /\ (forall l, label_counts s !! l =
                  if decide (l ∈ LABELS) then Some (days_labelled l ds) else None)
    /\ most_common_emotions s =
         match ds with
         | [] => []
         | _ => take 3 (stable_sort more_frequent (count_emotions (tags_seen ds)))
         end
    /\ trend s =
         match ds with
         | [] => lit "insufficient_data"
         | _ =>
             if (4 <=? length ds)%nat then
               let half := (length ds / 2)%nat in
               let delta :=
                 fsub (fdiv (sum_scores (drop half ds))
                            (of_nat (Nat.max 1 (length ds - half))))
                      (fdiv (sum_scores (take half ds)) (of_nat (Nat.max 1 half))) in
               if fgt delta (decimal 12 2) then lit "improving"
               else if flt delta (fneg (decimal 12 2)) then lit "declining"
               else lit "stable"
             else lit "stable"
         end
    /\ average_sentiment s =
         match ds with
         | [] => zero
         | _ => py_round (fdiv (sum_scores ds) (of_nat (length ds))) 3
         end
    /\ average_subjectivity s =
         match ds with
         | [] => zero
         | _ => py_round (fdiv (py_sum (map subjectivity ds)) (of_nat (length ds))) 3
         end.
Proof.
  intros Hok. destruct ds as [|d ds].
  { eexists. split; [reflexivity|]. split_and!; try reflexivity.
    intros l. cbn [label_counts]. rewrite zero_counts_lookup.
    by destruct (decide (l ∈ LABELS)). }
  destruct (tally_returns (d :: ds) ZERO_COUNTS []) as (counts & Hrun & Hlook).
  { eapply Forall_impl; [exact Hok|]. intros d' Hd'. simpl in Hd'.
    rewrite zero_counts_lookup, decide_True by done. by eexists. }
  unfold summarize. rewrite Hrun. eexists. split; [reflexivity|].
  split_and!; try reflexivity.
  intros l. cbn [label_counts]. rewrite Hlook, zero_counts_lookup.
  by destruct (decide (l ∈ LABELS)).
Qed.

Lemma flt_negative_not_fgt_positive (x : float) (m1 m2 : positive) (e1 e2 : Z) :
  flt x (S754_finite true m1 e1) = true ->
  fgt x (S754_finite false m2 e2) = false.
Proof. by destruct x as [|[]| |[]]. Qed.

(** C2. On [n] days (with labels among the three) the summarizer returns,
    and: with [n >= 4] the days are split at [n // 2], the first [n // 2] and
    the rest, [delta] is the mean score of the second part minus the mean
    score of the first (a mean being the [sum] of the scores over their
    number), and the trend is improving when [delta > 0.12], declining when
    [delta < -0.12], stable otherwise; with [1 <= n <= 3] the trend is
    stable; the trend is insufficient_data exactly when [n = 0].  This holds
    whichever way the interpreter's [sum] adds floats. *)
Theorem trend_by_halves {builtins : Builtins} (ds : list DayEmotion) :
  Forall (fun d => sentiment_label d ∈ LABELS) ds ->
  exists s : Summary,
    summarize ds = inr s
    /\ let n := length ds in
       let first := take (n / 2)%nat ds in
       let second := drop (n / 2)%nat ds in
       let delta := fsub (mean (map sentiment_score second))
                         (mean (map sentiment_score first)) in
       (trend s = lit "insufficient_data" <-> n = 0%nat)
       /\ ((1 <= n <= 3)%nat -> trend s = lit "stable")
       /\ ((4 <= n)%nat ->
           first ++ second = ds
           /\ length first = (n / 2)%nat
           /\ length second = (n - n / 2)%nat
           /\ (fgt delta (decimal 12 2) = true -> trend s = lit "improving")
           /\ (flt delta (fneg (decimal 12 2)) = true -> trend s = lit "declining")
           /\ (fgt delta (decimal 12 2) = false ->
               flt delta (fneg (decimal 12 2)) = false ->
               trend s = lit "stable")).
Proof.
  intros Hok.
  destruct (summarize_returns ds Hok) as (s & Hs & _ & _ & _ & Ht & _).
  exists s. split; [exact Hs|]. intros n first second delta.
  destruct (decide (ds = [])) as [->|Hne].
  { rewrite Ht. subst n. simpl. split_and!; [done|lia|lia]. }
  assert (Hn : (0 < n)%nat) by (subst n; destruct ds; [done|simpl; lia]).
  assert (Ht' :
    trend s =
      if (4 <=? length ds)%nat then
        let half := (length ds / 2)%nat in
        let delta :=
          fsub (fdiv (sum_scores (drop half ds))
                     (of_nat (Nat.max 1 (length ds - half))))
               (fdiv (sum_scores (take half ds)) (of_nat (Nat.max 1 half))) in
        if fgt delta (decimal 12 2) then lit "improving"
        else if flt delta (fneg (decimal 12 2)) then lit "declining"
        else lit "stable"
      else lit "stable") by (destruct ds; [done|exact Ht]).
  clear Ht.
  assert (Hlen1 : length first = (n / 2)%nat).
  { subst first n. rewrite length_take.
    pose proof (Nat.Div0.div_le_upper_bound (length ds) 2 (length ds)). lia. }
  assert (Hlen2 : length second = (n - n / 2)%nat).
  { subst second n. by rewrite length_drop. }
  assert (Htrend :
    trend s =
      if (4 <=? n)%nat then
        if fgt delta (decimal 12 2) then lit "improving"
        else if flt delta (fneg (decimal 12 2)) then lit "declining"
        else lit "stable"
      else lit "stable").
  { rewrite Ht'. fold n. destruct (Nat.leb_spec 4 n) as [H4|H4]; [|done].
    assert (Hhalf : (2 <= n / 2)%nat) by (apply Nat.div_le_lower_bound; lia).
    assert (Hrest : (1 <= n - n / 2)%nat).
    { pose proof (Nat.div_lt n 2). lia. }
    cbv zeta. rewrite (Nat.max_r 1 (n / 2)), (Nat.max_r 1 (n - n / 2)) by lia.
    subst delta. unfold mean, sum_scores. fold first second.
    by rewrite !length_map, Hlen1, Hlen2. }
  split_and!.
  - rewrite Htrend. split; [|lia].
    destruct (4 <=? n)%nat; [|done].
    destruct (fgt delta _); [done|]. by destruct (flt delta _).
  - intros [_ H3]. rewrite Htrend.
    by destruct (Nat.leb_spec 4 n); [lia|].
  - intros H4. split_and!; try done.
    + apply take_drop.
    + intros Hd. rewrite Htrend. destruct (Nat.leb_spec 4 n); [|lia]. by rewrite Hd.
    + intros Hd. rewrite Htrend. destruct (Nat.leb_spec 4 n); [|lia].
      rewrite Hd. revert Hd. float_literals. intros Hd.
      by rewrite (flt_negative_not_fgt_positive _ _ _ _ _ Hd).
    + intros Hd1 Hd2. rewrite Htrend. destruct (Nat.leb_spec 4 n); [|lia].
      by rewrite Hd1, Hd2.
Qed.

Lemma trend_by_halves_witness :
  let day (score : float) :=
    {| date := JStr (lit "2024-05-01"); sentiment_score := score;
       sentiment_label := lit "neutral"; subjectivity := zero;
       dominant_emotions := [lit "calm"] |} in
  let rising := [day zero; day zero; day (decimal 5 1); day (decimal 5 1)] in
  let level := [day (decimal 5 1); day zero; day (decimal 1 1); day (decimal 6 1)] in
  let falling := [day (decimal 2 1); day (decimal 6 1); day (decimal 3 1);
                  day zero; day (decimal 1 1)] in
  (exists s, summarize (builtins := cpython_up_to_311) rising = inr s
             /\ trend s = lit "improving")
  /\ (exists s, summarize (builtins := cpython_up_to_311) level = inr s
                /\ trend s = lit "stable")
  /\ (exists s, summarize (builtins := cpython_from_312) falling = inr s
                /\ trend s = lit "declining").
Proof.
  intros day rising level falling.
  assert (Hlabels : forall ds, Forall (fun d => d ∈ ds) ds ->
            Forall (fun d => sentiment_label d = lit "neutral") ds ->
            Forall (fun d => sentiment_label d ∈ LABELS) ds).
  { intros ds _ H. eapply Forall_impl; [exact H|]. intros d ->.
    unfold LABELS. apply list_elem_of_further, list_elem_of_here. }
  split_and!.
  - destruct (trend_by_halves (builtins := cpython_up_to_311) rising)
      as (s & Hs & _ & _ & H4).
    { apply Hlabels; repeat constructor. }
    exists s. split; [exact Hs|].
    destruct H4 as (_ & _ & _ & Hup & _); [simpl; lia|].
    apply Hup. vm_compute. reflexivity.
  - destruct (trend_by_halves (builtins := cpython_up_to_311) level)
      as (s & Hs & _ & _ & H4).
    { apply Hlabels; repeat constructor. }
    exists s. split; [exact Hs|].
    destruct H4 as (_ & _ & _ & _ & _ & Hflat); [simpl; lia|].
    apply Hflat; vm_compute; reflexivity.
  - destruct (trend_by_halves (builtins := cpython_from_312) falling)
      as (s & Hs & _ & _ & H4).
    { apply Hlabels; repeat constructor. }
    exists s. split; [exact Hs|].
    destruct H4 as (_ & _ & _ & _ & Hdown & _); [simpl; lia|].
    apply Hdown. vm_compute. reflexivity.
Defined.

(** The trend of the six days
    [0.5, 0.5, 0.5, 0.5, 0.68, 0.68] shows what the interpreter's [sum]
    decides: the exact [delta] is [0.12]; adding from left to right rounds
    the second sum up by one bit and the trend is improving, the compensated
    sum is exact and the trend is stable. *)
Lemma trend_depends_on_sum :
  let day (score : float) :=
    {| date := JStr (lit "2024-05-01"); sentiment_score := score;
       sentiment_label := lit "neutral"; subjectivity := zero;
       dominant_emotions := [lit "calm"] |} in
  let ds := [day (decimal 5 1); day (decimal 5 1); day (decimal 5 1);
             day (decimal 5 1); day (decimal 68 2); day (decimal 68 2)] in
  (exists s, summarize (builtins := cpython_up_to_311) ds = inr s
             /\ trend s = lit "improving")
  /\ (exists s, summarize (builtins := cpython_from_312) ds = inr s
                /\ trend s = lit "stable").
Proof. split; eexists; (split; [vm_compute; reflexivity|reflexivity]). Qed.





(** ** The whole run *)

Section well_formed.

Lemma to_label_in_labels (p : float) : _to_label p ∈ LABELS.
Proof.
  unfold _to_label, LABELS. destruct (fge p _); [|destruct (fle p _)];
    rewrite !elem_of_cons; auto.
Qed.

Lemma emotions_well_formed (tags : list str) :
  tags ∈ [[lit "joy"; lit "confidence"]; [lit "calm"; lit "confidence"];
          [lit "frustration"; lit "anxiety"]; [lit "anxiety"; lit "calm"];
          [lit "calm"]] ->
  NoDup tags /\ Forall (fun tag => tag ∈ EMOTIONS) tags
  /\ (1 <= length tags <= 2)%nat.
Proof.
  rewrite !elem_of_cons. intros [->|[->|[->|[->|[->|H]]]]];
    [| | | | |by apply not_elem_of_nil in H].
  all: split; [compute_done|].
  all: split; [compute_done|simpl; lia].
Qed.

Lemma to_emotions_cases (p s : float) :
  _to_emotions p s ∈
    [[lit "joy"; lit "confidence"]; [lit "calm"; lit "confidence"];
     [lit "frustration"; lit "anxiety"]; [lit "anxiety"; lit "calm"];
     [lit "calm"]].
Proof.
  unfold _to_emotions.
  repeat match goal with |- context [if ?b then _ else _] => destruct b end;
    rewrite !elem_of_cons; auto 10.
Qed.

Lemma neutral_day_well_formed (date : json) : well_formed_day (neutral_day date).
Proof.
  split; [|apply emotions_well_formed]; simpl.
  - unfold LABELS. rewrite !elem_of_cons. auto.
  - rewrite !elem_of_cons. auto 10.
Qed.

Lemma scored_day_well_formed (date : json) (p s : float) :
  well_formed_day (scored_day date p s).
Proof.
  split; [apply to_label_in_labels|].
  apply emotions_well_formed, to_emotions_cases.
Qed.

End well_formed.

Section encoding.

(** The strings the script itself puts in the output are plain ASCII. *)
Lemma utf8_ok_label (l : str) : l ∈ LABELS -> utf8_ok l = true.
Proof.
  unfold LABELS. rewrite !elem_of_cons.
  intros [->|[->|[->|H]]]; [by vm_compute..|by apply not_elem_of_nil in H].
Qed.

Lemma utf8_ok_emotion (tag : str) : tag ∈ EMOTIONS -> utf8_ok tag = true.
Proof.
  unfold EMOTIONS. rewrite !elem_of_cons.
  intros [->|[->|[->|[->|[->|H]]]]]; [by vm_compute..|by apply not_elem_of_nil in H].
Qed.

(** Of a day the analysis built, only the date can stand in the way of the
    encoding. *)
Lemma day_utf8_ok_date (d : DayEmotion) :
  well_formed_day d -> day_utf8_ok d = json_utf8_ok (date d).
Proof.
  intros (Hl & _ & Ht & _). unfold day_utf8_ok.
  rewrite (utf8_ok_label _ Hl), andb_true_r.
  replace (forallb utf8_ok (dominant_emotions d)) with true;
    [by rewrite andb_true_r|].
  symmetry. apply forallb_forall. intros tag Hin%list_elem_of_In.
  rewrite Forall_forall in Ht. by apply utf8_ok_emotion, Ht.
Qed.

Lemma forallb_Forall {A : Type} (f : A -> bool) (l : list A) :
  forallb f l = true <-> Forall (fun a => f a = true) l.
Proof.
  induction l as [|a l IH]; simpl; [by split; [constructor|]|].
  rewrite andb_true_iff, Forall_cons, IH. done.
Qed.

Lemma forallb_Exists {A : Type} (f : A -> bool) (l : list A) :
  forallb f l = false <-> Exists (fun a => f a = false) l.
Proof.
  induction l as [|a l IH]; simpl; [by split; [|intros ?%Exists_nil]|].
  rewrite andb_false_iff, Exists_cons, IH. done.
Qed.

Lemma forallb_perm {A : Type} (f : A -> bool) (l l' : list A) :
  l ≡ₚ l' -> forallb f l = forallb f l'.
Proof.
  induction 1 as [|x l l' _ IH|x y l|l l' l'' _ IH1 _ IH2]; simpl.
  - done.
  - by rewrite IH.
  - by destruct (f x), (f y).
  - by rewrite IH1.
Qed.

(** The summary of days the analysis built holds no string that cannot be
    encoded. *)
Lemma summary_utf8_ok_returns {builtins : Builtins} (ds : list DayEmotion)
    (s : Summary) :
  Forall well_formed_day ds -> summarize ds = inr s -> summary_utf8_ok s = true.
Proof.
  intros Hwf Hs.
  assert (Hok : Forall (fun d => sentiment_label d ∈ LABELS) ds).
  { eapply Forall_impl; [exact Hwf|]. by intros d [? _]. }
  destruct (summarize_returns ds Hok) as (s' & Hs' & _ & Hcounts & Hcommon & Htrend & _).
  assert (s' = s) as -> by congruence.
  unfold summary_utf8_ok. rewrite !andb_true_iff. split_and!.
  - rewrite Htrend. destruct ds; [by vm_compute|].
    destruct (4 <=? _)%nat; [|by vm_compute]. cbv zeta.
    destruct (fgt _ _); [by vm_compute|]. destruct (flt _ _); by vm_compute.
  - apply forallb_forall. intros [k v] Hin%list_elem_of_In. cbn [fst].
    rewrite Hcommon in Hin. destruct ds as [|d ds']; [by apply not_elem_of_nil in Hin|].
    apply subseteq_take in Hin. rewrite stable_sort_perm in Hin.
    apply count_emotions_elem in Hin as [Hin _].
    apply utf8_ok_emotion. unfold tags_seen in Hin.
    apply list_elem_of_In, in_concat in Hin as (tags & Htags' & Hk).
    apply in_map_iff in Htags' as (d' & <- & Hd'%list_elem_of_In).
    apply list_elem_of_In in Hk.
    rewrite Forall_forall in Hwf. destruct (Hwf d' Hd') as (_ & _ & Htags & _).
    rewrite Forall_forall in Htags. by apply Htags.
  - apply forallb_forall. intros [k v] Hin%list_elem_of_In. cbn [fst].
    apply elem_of_map_to_list in Hin. rewrite Hcounts in Hin.
    apply utf8_ok_label. by destruct (decide (k ∈ LABELS)).
Qed.

(** So the output of a run can be encoded exactly when the dates of its
    days can. *)
Lemma output_utf8_ok_dates {builtins : Builtins} (ds : list DayEmotion)
    (s : Summary) :
  Forall well_formed_day ds -> summarize ds = inr s ->
  output_utf8_ok {| summary := s; timeline := ds |}
  = forallb (fun d => json_utf8_ok (date d)) ds.
Proof.
  intros Hwf Hs. unfold output_utf8_ok. cbn [summary timeline].
  rewrite (summary_utf8_ok_returns ds s Hwf Hs), andb_true_l.
  clear Hs. induction Hwf as [|d ds Hd _ IH]; [done|]. simpl.
  by rewrite (day_utf8_ok_date d Hd), IH.
Qed.

End encoding.

Section run.

Context {Ext : Type} {builtins : Builtins}.
Variable translate : str -> Ext -> Ext * outcome str.
Variable sentiment : str -> Ext -> Ext * outcome (float * float).
Variable sort_other_dates : list DayEmotion -> exn + list DayEmotion.

(** Every [DayEmotion] the analysis returns is well formed and carries the
    date of its record. *)
Lemma analyze_record_well_formed (record : gmap str json) (w w' : world Ext)
    (d : DayEmotion) :
  analyze_record translate sentiment record w = (w', Return d) ->
  well_formed_day d /\ date d = record_date record.
Proof.
  intros [(_ & _ & ->)|(? & ? & ? & ? & p & s & _ & _ & _ & _ & _ & ->)]%analyze_record_inv.
  - split; [apply neutral_day_well_formed|done].
  - split; [apply scored_day_well_formed|done].
Qed.

(** The loop over the records returns one [DayEmotion] for each dict, in
    order. *)
Lemma analyze_all_inv (items : list json) :
  forall (w w1 : world Ext) (analyzed : list DayEmotion),
    analyze_all translate sentiment items w = (w1, Return analyzed) ->
    Forall2 (fun record d =>
               exists wa wb,
                 analyze_record translate sentiment record wa = (wb, Return d))
            (dict_records items) analyzed.
Proof.
  induction items as [|v items IH]; intros w w1 analyzed Hrun.
  { simpl in Hrun. injection Hrun as <- <-. constructor. }
  destruct v as [| | | | | |record];
    try (simpl in Hrun; by apply IH in Hrun).
  simpl in Hrun. unfold bind at 1 in Hrun.
  destruct (analyze_record translate sentiment record w) as [wa [d|e|]] eqn:Hd;
    try done.
  unfold bind at 1 in Hrun.
  destruct (analyze_all translate sentiment items wa) as [wb [ds|e|]] eqn:Hds;
    try done.
  injection Hrun as <- <-. simpl. constructor; [eauto|]. by eapply IH.
Qed.

Lemma sort_by_date_strings (ds : list DayEmotion) :
  Forall (fun d => is_str (date d) = true) ds ->
  sort_by_date sort_other_dates ds = inr (stable_sort date_ahead ds).
Proof.
  intros H. unfold sort_by_date.
  replace (forallb _ ds) with true; [done|].
  symmetry. apply forallb_forall. intros d Hd%list_elem_of_In.
  rewrite Forall_forall in H. by apply H.
Qed.

(** The days a run has analysed are well formed. *)
Lemma analyze_all_well_formed (items : list json) (w w1 : world Ext)
    (analyzed : list DayEmotion) :
  analyze_all translate sentiment items w = (w1, Return analyzed) ->
  Forall well_formed_day analyzed.
Proof.
  intros Hrun. pose proof (analyze_all_inv _ _ _ _ Hrun) as Hinv.
  apply Forall_forall. intros d [i Hi]%list_elem_of_lookup.
  destruct (Forall2_lookup_r _ _ _ i d Hinv Hi) as (rcd & _ & wa & wb & Hd').
  by apply analyze_record_well_formed in Hd' as [? _].
Qed.

(** A run whose records are analysed and carry string dates gets as far as
    writing the summary and the timeline of the sorted days, and the text
    can be encoded exactly when the dates can. *)
Lemma main_writes (fields : gmap str json) (items : list json)
    (w w1 : world Ext) (analyzed : list DayEmotion) :
  dict_get fields (lit "records") (JList []) = JList items ->
  analyze_all translate sentiment items (with_outdir w) = (w1, Return analyzed) ->
  Forall (fun d => is_str (date d) = true) analyzed ->
  exists s,
    summarize (stable_sort date_ahead analyzed) = inr s
    /\ output_utf8_ok {| summary := s;
                         timeline := stable_sort date_ahead analyzed |}
       = forallb (fun d => json_utf8_ok (date d)) analyzed
    /\ main translate sentiment sort_other_dates (JDict fields) w =
         write_out {| summary := s;
                      timeline := stable_sort date_ahead analyzed |} w1.
Proof.
  intros Hrec Hrun Hstr.
  assert (Hwf : Forall well_formed_day (stable_sort date_ahead analyzed)).
  { rewrite stable_sort_perm. by eapply analyze_all_well_formed. }
  assert (Hok : Forall (fun d => sentiment_label d ∈ LABELS)
                       (stable_sort date_ahead analyzed)).
  { eapply Forall_impl; [exact Hwf|]. by intros d [? _]. }
  destruct (summarize_returns _ Hok) as (s & Hs & _).
  exists s. split; [exact Hs|]. split.
  { rewrite (output_utf8_ok_dates _ _ Hwf Hs).
    apply forallb_perm, stable_sort_perm. }
  unfold main. unfold bind at 1. cbn [mkdir_outdir].
  change {| ext := ext w; calls := calls w; outdir_made := true;
            out_file := out_file w |} with (with_outdir w).
  unfold bind at 1. cbn [ret]. rewrite Hrec.
  unfold bind at 1. rewrite Hrun.
  unfold bind at 1. rewrite (sort_by_date_strings _ Hstr). cbn [lift_exn ret].
  unfold bind at 1. rewrite Hs. cbn [lift_exn ret]. reflexivity.
Qed.

(** The days a run has analysed carry the dates of the records, in
    order. *)
Lemma analyze_all_dates (items : list json) (w w1 : world Ext)
    (analyzed : list DayEmotion) :
  analyze_all translate sentiment items w = (w1, Return analyzed) ->
  map date analyzed = map record_date (dict_records items).
Proof.
  intros Hrun. pose proof (analyze_all_inv _ _ _ _ Hrun) as Hinv. clear Hrun.
  induction Hinv as [|record d records ds (wa & wb & Hd) _ IH]; [done|].
  simpl. rewrite IH. f_equal. by apply analyze_record_well_formed in Hd as [_ ->].
Qed.

(** The same, read from the records: with string dates (or none) the run
    gets as far as the write, and the write goes through exactly when no
    date holds a surrogate. *)
Lemma main_on_string_dates (fields : gmap str json) (items : list json)
    (w w1 : world Ext) (analyzed : list DayEmotion) :
  fields !! lit "records" = Some (JList items) ->
  Forall (fun record => is_str (record_date record) = true) (dict_records items) ->
  analyze_all translate sentiment items (with_outdir w) = (w1, Return analyzed) ->
  exists s,
    summarize (stable_sort date_ahead analyzed) = inr s
    /\ output_utf8_ok {| summary := s;
                         timeline := stable_sort date_ahead analyzed |}
       = forallb (fun record => json_utf8_ok (record_date record))
                 (dict_records items)
    /\ main translate sentiment sort_other_dates (JDict fields) w =
         write_out {| summary := s;
                      timeline := stable_sort date_ahead analyzed |} w1.
Proof.
  intros Hrec Hdates Hrun.
  pose proof (analyze_all_dates _ _ _ _ Hrun) as Hmap.
  assert (Hstr : Forall (fun d => is_str (date d) = true) analyzed).
  { assert (H : Forall (fun v => is_str v = true) (map date analyzed)).
    { rewrite Hmap. by apply Forall_fmap. }
    by apply Forall_fmap in H. }
  destruct (main_writes fields items w w1 analyzed) as (s & Hs & Hok & Hmain);
    [|done..|].
  { unfold dict_get. by rewrite Hrec. }
  exists s. split; [exact Hs|]. split; [|exact Hmain].
  rewrite Hok.
  transitivity (forallb json_utf8_ok (map date analyzed)).
  { clear. induction analyzed as [|d ds IH]; [done|]. simpl. by rewrite IH. }
  rewrite Hmap. clear. induction (dict_records items) as [|r rs IH]; [done|].
  simpl. by rewrite IH.
Qed.

(** What the write does. *)
Lemma write_out_ok (out : Output) (w : world Ext) :
  output_utf8_ok out = true -> write_out (Ext := Ext) out w = (with_output out w, Return tt).
Proof. intros H. unfold write_out. by rewrite H. Qed.

Lemma write_out_fails (out : Output) (w : world Ext) :
  output_utf8_ok out = false ->
  write_out (Ext := Ext) out w = (with_empty_file w, Raise UnicodeEncodeError).
Proof. intros H. unfold write_out. by rewrite H. Qed.

End run.

Section record_fields.

Lemma norm_text_falsy (v : json) : truthy v = false -> _norm_text v = inr [].
Proof. intros H. unfold _norm_text. by rewrite H. Qed.

Lemma fields_not_date (k : str) : k ∈ FIELDS -> k <> lit "date".
Proof.
  unfold FIELDS. rewrite !elem_of_cons.
  intros [->|[->|[->|[->|H]]]]; [done..|by apply not_elem_of_nil in H].
Qed.

(** A field that holds a falsy value reads as the field left out. *)
Lemma joined_text_delete_falsy (record : gmap str json) (k : str) (v : json) :
  record !! k = Some v -> truthy v = false ->
  joined_text (delete k record) = joined_text record.
Proof.
  intros Hk Hv. unfold joined_text.
  assert (Heq : map (fun k' => _norm_text (dict_get (delete k record) k' (JStr []))) FIELDS
                = map (fun k' => _norm_text (dict_get record k' (JStr []))) FIELDS).
  { apply map_ext. intros k'. unfold dict_get.
    destruct (decide (k = k')) as [<-|Hne].
    - by rewrite lookup_delete_eq, Hk, (norm_text_falsy v Hv).
    - by rewrite lookup_delete_ne. }
  by rewrite Heq.
Qed.

Lemma joined_text_insert_date (record : gmap str json) (v : json) :
  joined_text (<[lit "date" := v]> record) = joined_text record.
Proof.
  unfold joined_text.
  assert (Heq : map (fun k => _norm_text (dict_get (<[lit "date" := v]> record) k (JStr []))) FIELDS
                = map (fun k => _norm_text (dict_get record k (JStr []))) FIELDS).
  { apply map_ext_in. intros k Hk%list_elem_of_In%fields_not_date.
    unfold dict_get. by rewrite lookup_insert_ne. }
  by rewrite Heq.
Qed.

End record_fields.

(** C1 does not hold as stated: a payload without the [records] key does
    not make the run fail.  On the empty object the run writes the summary of
    zero days and an empty timeline. *)
Lemma missing_records_writes_summary :
  (∅ : gmap str json) !! lit "records" = None
  /\ main (builtins := cpython_from_312)
          translate_down sentiment_down sort_refused (JDict ∅) world0 =
       ({| ext := tt; calls := []; outdir_made := true;
           out_file := Document {| summary := zero_summary; timeline := [] |} |},
        Return tt).
Proof. split; [apply lookup_empty|by vm_compute]. Qed.

(** C1, amended.  A payload whose [records] is present but not a list makes
    the run raise [ValueError], and a payload that is not an object makes it
    raise [AttributeError]; in both cases only the output directory has been
    made, no output file is written.  A payload without [records] is read as
    one with no record: the run writes the summary of zero days and an empty
    timeline. *)
Theorem malformed_records_abort {Ext : Type} {builtins : Builtins}
    (translate : str -> Ext -> Ext * outcome str)
    (sentiment : str -> Ext -> Ext * outcome (float * float))
    (sort_other_dates : list DayEmotion -> exn + list DayEmotion)
    (w : world Ext) :
  (forall fields v,
      fields !! lit "records" = Some v -> (forall items, v <> JList items) ->
      main translate sentiment sort_other_dates (JDict fields) w =
        (with_outdir w, Raise (ValueError "'records' must be a list")))
  /\ (forall payload,
        (forall fields, payload <> JDict fields) ->
        main translate sentiment sort_other_dates payload w =
          (with_outdir w, Raise AttributeError))
  /\ out_file (with_outdir w) = out_file w
  /\ (forall fields,
        fields !! lit "records" = None ->
        main translate sentiment sort_other_dates (JDict fields) w =
          (with_output {| summary := zero_summary; timeline := [] |} (with_outdir w),
           Return tt)).
Proof.
  split_and!.
  - intros fields v Hv Hnot. unfold main, bind, dict_get. simpl. rewrite Hv.
    destruct v; try done. by destruct (Hnot items).
  - intros payload Hnot. unfold main, bind. simpl.
    destruct payload; try done. by destruct (Hnot fields).
  - done.
  - intros fields Hnone. unfold main, bind, dict_get. simpl. rewrite Hnone.
    by apply write_out_ok.
Qed.

Lemma malformed_records_abort_witness :
  main (builtins := cpython_from_312) translate_down sentiment_down sort_refused
       (JDict {[lit "records" := JStr (lit "none")]}) world0 =
    (with_outdir world0, Raise (ValueError "'records' must be a list"))
  /\ main (builtins := cpython_from_312) translate_down sentiment_down sort_refused (JList []) world0 =
       (with_outdir world0, Raise AttributeError)
  /\ main (builtins := cpython_from_312) translate_down sentiment_down sort_refused
          (JDict {[lit "note" := JNull]}) world0 =
       (with_output {| summary := zero_summary; timeline := [] |}
                    (with_outdir world0), Return tt).
Proof.
  destruct (malformed_records_abort (builtins := cpython_from_312) translate_down sentiment_down sort_refused world0)
    as (Hbad & Hobj & _ & Hnone).
  split_and!.
  - apply (Hbad _ (JStr (lit "none"))); [by vm_compute|done].
  - by apply Hobj.
  - apply Hnone. by vm_compute.
Defined.

(** C10. A text field that holds [null] or another falsy value is analysed
    exactly as if the field were left out.  A record without [date] is
    analysed exactly as one dated with the empty string, and the
    [DayEmotion] it returns has the empty string for date.  In a run whose
    records carry a string date or none and are all analysed, the run gets
    as far as writing an output whose timeline holds every record analysed,
    the ones without date with the empty string for date; the empty string
    is no obstacle to the write: when no date of the run holds a surrogate
    code point the run returns with that output in the file, and when one
    does the write raises [UnicodeEncodeError] and leaves the file empty. *)
Theorem falsy_fields_and_missing_date {Ext : Type} {builtins : Builtins}
    (translate : str -> Ext -> Ext * outcome str)
    (sentiment : str -> Ext -> Ext * outcome (float * float))
    (sort_other_dates : list DayEmotion -> exn + list DayEmotion) :
  (forall record k v w,
      k ∈ FIELDS -> record !! k = Some v -> truthy v = false ->
      analyze_record translate sentiment record w =
      analyze_record translate sentiment (delete k record) w)
  /\ (forall record w,
        record !! lit "date" = None ->
        analyze_record translate sentiment record w =
        analyze_record translate sentiment (<[lit "date" := JStr []]> record) w)
  /\ (forall record w w' d,
        record !! lit "date" = None ->
        analyze_record translate sentiment record w = (w', Return d) ->
        date d = JStr [] /\ json_utf8_ok (date d) = true)
  /\ (forall fields items w w1 analyzed,
        fields !! lit "records" = Some (JList items) ->
        Forall (fun record => is_str (record_date record) = true)
               (dict_records items) ->
        analyze_all translate sentiment items (with_outdir w) = (w1, Return analyzed) ->
        exists out,
          main translate sentiment sort_other_dates (JDict fields) w = write_out out w1
          /\ timeline out ≡ₚ analyzed
          /\ (forall record,
                record ∈ dict_records items ->
                exists d wa wb,
                  d ∈ timeline out
                  /\ analyze_record translate sentiment record wa = (wb, Return d)
                  /\ (record !! lit "date" = None -> date d = JStr []))
          /\ (Forall (fun record => json_utf8_ok (record_date record) = true)
                     (dict_records items) ->
              main translate sentiment sort_other_dates (JDict fields) w
                = (with_output out w1, Return tt))
          /\ (Exists (fun record => json_utf8_ok (record_date record) = false)
                     (dict_records items) ->
              main translate sentiment sort_other_dates (JDict fields) w
                = (with_empty_file w1, Raise UnicodeEncodeError))).
Proof.
  split_and!.
  - intros record k v w Hk Hv Hfalsy. unfold analyze_record.
    rewrite (joined_text_delete_falsy record k v Hv Hfalsy).
    unfold dict_get. rewrite lookup_delete_ne; [done|].
    by apply fields_not_date.
  - intros record w Hnone. unfold analyze_record.
    rewrite joined_text_insert_date. unfold dict_get.
    by rewrite lookup_insert_eq, Hnone.
  - intros record w w' d Hnone Hrun.
    apply analyze_record_well_formed in Hrun as [_ ->].
    unfold record_date, dict_get. by rewrite Hnone.
  - intros fields items w w1 analyzed Hrec Hdates Hrun.
    pose proof (analyze_all_inv _ _ _ _ _ _ Hrun) as Hinv.
    destruct (main_on_string_dates translate sentiment sort_other_dates
                fields items w w1 analyzed Hrec Hdates Hrun)
      as (s & Hs & Hok & Hmain).
    eexists. split; [exact Hmain|]. cbn [timeline].
    split; [apply stable_sort_perm|]. split_and!.
    + intros record [i Hi]%list_elem_of_lookup.
      destruct (Forall2_lookup_l _ _ _ i record Hinv Hi) as (d & Hd & wa & wb & Hrd).
      exists d, wa, wb. split_and!; [|done|].
      * rewrite stable_sort_perm. by eapply list_elem_of_lookup_2.
      * intros Hnone. apply analyze_record_well_formed in Hrd as [_ ->].
        unfold record_date, dict_get. by rewrite Hnone.
    + intros Hclean%forallb_Forall. rewrite Hmain.
      apply write_out_ok. by rewrite Hok.
    + intros Hbad%forallb_Exists. rewrite Hmain.
      apply write_out_fails. by rewrite Hok.
Qed.

Lemma falsy_fields_and_missing_date_witness :
  let scorer := sentiment_const (decimal 5 1) (decimal 6 1) in
  let undated := record_of [(lit "experience", JStr (lit "good day"));
                            (lit "reflection", JNull)] in
  let dated := record_of [(lit "date", JStr (lit "2024-05-02"));
                          (lit "experience", JInt 0)] in
  let payload := {[lit "records" := JList [JDict undated; JNull; JDict dated]]} in
  let w1 := log_call (Sentiment (lit "good day")) tt
              (log_call (Translate (lit "good day")) tt (with_outdir world0)) in
  analyze_record translate_echo scorer undated world0 =
    analyze_record translate_echo scorer (delete (lit "reflection") undated) world0
  /\ analyze_record translate_echo scorer undated world0 =
       analyze_record translate_echo scorer
                      (<[lit "date" := JStr []]> undated) world0
  /\ exists out,
       main (builtins := cpython_from_312)
            translate_echo scorer sort_refused (JDict payload) world0
         = (with_output out w1, Return tt)
       /\ exists d, d ∈ timeline out /\ date d = JStr [].
Proof.
  intros scorer undated dated payload w1.
  destruct (falsy_fields_and_missing_date (builtins := cpython_from_312)
              translate_echo scorer sort_refused)
    as (Hfalsy & Hdate & _ & Hrun).
  split_and!.
  - apply (Hfalsy undated (lit "reflection") JNull world0);
      [compute_done|by vm_compute|done].
  - apply Hdate. by vm_compute.
  - destruct (Hrun payload [JDict undated; JNull; JDict dated] world0 w1
                [scored_day (JStr []) (decimal 5 1) (decimal 6 1);
                 neutral_day (JStr (lit "2024-05-02"))])
      as (out & _ & _ & Hin & Hclean & _).
    + by vm_compute.
    + repeat constructor.
    + by vm_compute.
    + exists out. split; [apply Hclean; repeat constructor|].
      destruct (Hin undated) as (d & wa & wb & Hd & _ & Hnodate).
      { apply list_elem_of_here. }
      exists d. split; [exact Hd|]. apply Hnodate. by vm_compute.
Defined.

(** ** What a run does to the world *)

Section call_log.

Context {Ext : Type}.
Variable translate : str -> Ext -> Ext * outcome str.
Variable sentiment : str -> Ext -> Ext * outcome (float * float).

Lemma call_translate_eq (chunk : str) (w : world Ext) (x : Ext) (r : outcome str) :
  translate chunk (ext w) = (x, r) ->
  call_translate translate chunk w = (log_call (Translate chunk) x w, r).
Proof. intros H. unfold call_translate. by rewrite H. Qed.

(** The loop over the chunks calls the translator on the chunks in order,
    up to the first call that does not return, and touches no file. *)
Lemma for_each_translate_log (chunks : list str) :
  forall (w w' : world Ext) (r : outcome (list str)),
    for_each (call_translate translate) chunks w = (w', r) ->
    out_file w' = out_file w /\ outdir_made w' = outdir_made w
    /\ exists n : nat,
        (n <= length chunks)%nat
        /\ calls w' = calls w ++ map Translate (take n chunks)
        /\ (forall ts, r = Return ts ->
              n = length chunks /\ length ts = length chunks).
Proof.
  induction chunks as [|c chunks IH]; intros w w' r Hrun.
  { simpl in Hrun. injection Hrun as <- <-. split_and!; try done.
    exists 0%nat. rewrite app_nil_r. split_and!; try done.
    by intros ts [= <-]. }
  simpl in Hrun. unfold bind at 1 in Hrun.
  destruct (translate c (ext w)) as [x [y|e|]] eqn:Hc;
    rewrite (call_translate_eq _ _ _ _ Hc) in Hrun.
  - unfold bind at 1 in Hrun.
    destruct (for_each (call_translate translate) chunks
                       (log_call (Translate c) x w)) as [w1 r1] eqn:Hrest.
    destruct (IH _ _ _ Hrest) as (Hf & Hd & n & Hn & Hcalls & Hret).
    assert (Hw : w' = w1)
      by (destruct r1; simpl in Hrun; unfold ret in Hrun; by injection Hrun as <- _).
    subst w1. split_and!; [done..|].
    exists (S n). split; [simpl; lia|]. split.
    + rewrite Hcalls. simpl. by rewrite <- app_assoc.
    + intros ts ->. destruct r1 as [ys| |]; try done.
      simpl in Hrun. unfold ret in Hrun. injection Hrun as <-. destruct (Hret ys eq_refl) as [-> Hlen].
      simpl. by rewrite Hlen.
  - injection Hrun as <- <-. split_and!; try done.
    exists 1%nat. split; [simpl; lia|]. split; [simpl; by rewrite ?take_0|done].
  - injection Hrun as <- <-. split_and!; try done.
    exists 1%nat. split; [simpl; lia|]. split; [simpl; by rewrite ?take_0|done].
Qed.

Lemma translate_log (text : str) (w w' : world Ext) (r : outcome str) :
  _translate_ja_to_en translate text w = (w', r) ->
  out_file w' = out_file w /\ outdir_made w' = outdir_made w
  /\ exists (chunks : list str) (n : nat),
      _chunk_text text 3000 = Some chunks
      /\ (n <= length chunks)%nat
      /\ calls w' = calls w ++ map Translate (take n chunks)
      /\ (forall t, r = Return t -> n = length chunks).
Proof.
  unfold _translate_ja_to_en.
  destruct (chunk_text_returns text 3000) as (chunks & Hc & _); [lia|].
  rewrite Hc. unfold bind at 1. simpl. unfold bind at 1.
  destruct (for_each (call_translate translate) chunks w) as [w1 r1] eqn:Hrun.
  destruct (for_each_translate_log _ _ _ _ Hrun) as (Hf & Hd & n & Hn & Hcalls & Hret).
  intros Hres.
  assert (Hw : w' = w1)
    by (destruct r1; simpl in Hres; unfold ret in Hres; by injection Hres as <- _).
  subst w1. split_and!; [done..|].
  exists chunks, n. split_and!; try done.
  intros t ->. destruct r1 as [ts| |]; try done.
  by destruct (Hret ts eq_refl).
Qed.

(** A text of at most 3000 characters is translated by one call on the
    whole text, and the answer is returned as it is. *)
Lemma translate_short_text (text t : str) (w : world Ext) (x : Ext) :
  (length text <= 3000)%nat ->
  translate text (ext w) = (x, Return t) ->
  _translate_ja_to_en translate text w = (log_call (Translate text) x w, Return t).
Proof.
  intros Hlen Ht. unfold _translate_ja_to_en.
  assert (Hc : _chunk_text text 3000 = Some [text]).
  { unfold _chunk_text, chunk_text_fuel.
    by destruct (Z.leb_spec (Z.of_nat (length text)) 3000); [|lia]. }
  rewrite Hc. unfold bind at 1. cbn [lift_fuel ret for_each].
  unfold bind. by rewrite (call_translate_eq _ _ _ _ Ht).
Qed.

Lemma score_text_log (date : json) (text : str) (w w' : world Ext)
    (r : outcome DayEmotion) :
  score_text sentiment date text w = (w', r) ->
  out_file w' = out_file w /\ outdir_made w' = outdir_made w
  /\ calls w' = calls w ++ [Sentiment text].
Proof.
  unfold score_text, bind, call_sentiment.
  destruct (sentiment text (ext w)) as [x [[p s]|e|]]; by intros [= <- <-].
Qed.

(** The calls of one analysis: the chunks of the record's text go to the
    translator in order, up to the first call that does not return, then the
    sentiment library is called at most once; no file is touched. *)
Lemma analyze_record_log (record : gmap str json) (w w' : world Ext)
    (r : outcome DayEmotion) :
  analyze_record translate sentiment record w = (w', r) ->
  out_file w' = out_file w /\ outdir_made w' = outdir_made w
  /\ exists (translated scored : list str),
      calls w' = calls w ++ map Translate translated ++ map Sentiment scored
      /\ (length scored <= 1)%nat
      /\ (forall d, r = Return d -> joined_text record <> inr [] ->
            length scored = 1%nat)
      /\ forall joined, joined_text record = inr joined ->
           exists chunks, _chunk_text joined 3000 = Some chunks
                          /\ translated `prefix_of` chunks
                          /\ (joined = [] -> translated = [] /\ scored = []).
Proof.
  intros Hrun. destruct (joined_text record) as [e|joined] eqn:Hj.
  { rewrite (analyze_record_raises _ _ _ _ _ Hj) in Hrun. injection Hrun as <- <-.
    split_and!; try done. exists [], []. rewrite app_nil_r.
    split_and!; try done. simpl; lia. }
  destruct (chunk_text_returns joined 3000) as (chunks & Hc & _); [lia|].
  destruct (decide (joined = [])) as [->|Hne].
  { rewrite (analyze_record_no_text _ _ _ _ Hj) in Hrun. injection Hrun as <- <-.
    split_and!; try done. exists [], []. rewrite app_nil_r.
    split_and!; try done; [simpl; lia|].
    intros joined [= <-]. exists chunks. split_and!; try done.
    apply prefix_nil. }
  rewrite (analyze_record_with_text _ _ _ _ _ Hj Hne) in Hrun.
  unfold bind at 1, try_except in Hrun.
  destruct (_translate_ja_to_en translate joined w) as [w1 r1] eqn:Ht.
  destruct (translate_log _ _ _ _ Ht) as (Hf & Hd & chunks' & n & Hc' & Hn & Hcalls & _).
  assert (chunks' = chunks) as -> by congruence.
  assert (Hshape :
    (exists text, score_text sentiment (record_date record) text w1 = (w', r))
    \/ (w' = w1 /\ r = Diverge)).
  { destruct r1 as [t|e|]; [left; by exists t|left; by exists joined|right].
    by injection Hrun as <- <-. }
  destruct Hshape as [[text Hs]|[-> ->]].
  - destruct (score_text_log _ _ _ _ _ Hs) as (Hf' & Hd' & Hcalls').
    split_and!; [congruence..|].
    exists (take n chunks), [text]. split_and!; try done.
    + rewrite Hcalls', Hcalls. simpl. by rewrite <- app_assoc.
    + intros joined' [= <-]. exists chunks. split_and!; try done.
      apply prefix_take.
  - split_and!; [done..|].
    exists (take n chunks), []. split_and!; try done.
    + by rewrite app_nil_r.
    + simpl; lia.
    + intros joined' [= <-]. exists chunks. split_and!; try done.
      apply prefix_take.
Qed.

Lemma logged_nil (w : world Ext) : logged [] (ext w) w = w.
Proof. destruct w. unfold logged. simpl. by rewrite app_nil_r. Qed.

Lemma logged_log_call (c : call) (cs : list call) (x1 x : Ext) (w : world Ext) :
  logged cs x (log_call c x1 w) = logged (c :: cs) x w.
Proof. unfold logged, log_call. simpl. by rewrite <- app_assoc. Qed.

(** The loop over the chunks, call by call: the translator answers the
    first [k] chunks; either these are all the chunks and the loop returns
    the answers, or the call on chunk [k] raises or does not return, and the
    loop ends there, with the same outcome. *)
Lemma for_each_translate_cases (chunks : list str) :
  forall (w w' : world Ext) (r : outcome (list str)),
    for_each (call_translate translate) chunks w = (w', r) ->
    exists (k : nat) (ts : list str) (x : Ext),
      (k <= length chunks)%nat
      /\ answered translate (take k chunks) (ext w) ts x
      /\ ((k = length chunks /\ r = Return ts
           /\ w' = logged (map Translate chunks) x w)
          \/ (exists c x1 e,
                chunks !! k = Some c /\ translate c x = (x1, Raise e)
                /\ r = Raise e
                /\ w' = logged (map Translate (take (S k) chunks)) x1 w)
          \/ (exists c x1,
                chunks !! k = Some c /\ translate c x = (x1, Diverge)
                /\ r = Diverge
                /\ w' = logged (map Translate (take (S k) chunks)) x1 w)).
Proof.
  induction chunks as [|c chunks IH]; intros w w' r Hrun.
  { simpl in Hrun. injection Hrun as <- <-.
    exists 0%nat, [], (ext w). split; [done|]. split; [constructor|].
    left. split_and!; [done..|]. by rewrite logged_nil. }
  simpl in Hrun. unfold bind at 1 in Hrun.
  destruct (translate c (ext w)) as [x1 [t|e|]] eqn:Hc;
    rewrite (call_translate_eq _ _ _ _ Hc) in Hrun.
  - unfold bind at 1 in Hrun.
    destruct (for_each (call_translate translate) chunks
                       (log_call (Translate c) x1 w)) as [w2 r2] eqn:Hrest.
    destruct (IH _ _ _ Hrest) as (k & ts & x & Hk & Hans & Hcases).
    exists (S k), (t :: ts), x. split; [simpl; lia|]. split.
    { simpl. by econstructor. }
    destruct Hcases as [(-> & -> & ->)|[(c' & x2 & e & Hc' & Hx2 & -> & ->)
                                       |(c' & x2 & Hc' & Hx2 & -> & ->)]].
    + left. simpl in Hrun. unfold ret in Hrun. injection Hrun as <- <-.
      split_and!; [done..|]. simpl. by rewrite logged_log_call.
    + right; left. injection Hrun as <- <-. exists c', x2, e.
      split_and!; [done..|]. change (take (S (S k)) (c :: chunks))
        with (c :: take (S k) chunks). simpl map. by rewrite logged_log_call.
    + right; right. injection Hrun as <- <-. exists c', x2.
      split_and!; [done..|]. change (take (S (S k)) (c :: chunks))
        with (c :: take (S k) chunks). simpl map. by rewrite logged_log_call.
  - injection Hrun as <- <-. exists 0%nat, [], (ext w).
    split; [simpl; lia|]. split; [constructor|]. right; left.
    exists c, x1, e. split_and!; done.
  - injection Hrun as <- <-. exists 0%nat, [], (ext w).
    split; [simpl; lia|]. split; [constructor|]. right; right.
    exists c, x1. split_and!; done.
Qed.

Lemma score_text_calls (date : json) (text : str) (w : world Ext) :
  calls (fst (score_text sentiment date text w)) = calls w ++ [Sentiment text].
Proof.
  destruct (score_text sentiment date text w) as [w' r] eqn:Hs.
  by destruct (score_text_log _ _ _ _ _ Hs) as (_ & _ & Hcalls).
Qed.

(** The analysis of a record, call by call.  A record whose text raises,
    or is empty, ends the analysis with no call made.  Otherwise the chunks
    of the text go to the translator in order, as long as it answers: when
    it has answered them all, the answers joined by newlines are scored;
    when a call raises, no further chunk is sent and the original text is
    scored; when a call does not return, neither does the analysis. *)
Lemma analyze_record_calls (record : gmap str json) (w w' : world Ext)
    (r : outcome DayEmotion) :
  analyze_record translate sentiment record w = (w', r) ->
  out_file w' = out_file w /\ outdir_made w' = outdir_made w
  /\ (forall e, joined_text record = inl e -> w' = w /\ r = Raise e)
  /\ (joined_text record = inr [] ->
      w' = w /\ r = Return (neutral_day (record_date record)))
  /\ (forall joined,
        joined_text record = inr joined -> joined <> [] ->
        exists (chunks : list str) (k : nat) (ts : list str) (x : Ext),
          _chunk_text joined 3000 = Some chunks
          /\ chunks <> [] /\ (k <= length chunks)%nat
          /\ answered translate (take k chunks) (ext w) ts x
          /\ ((k = length chunks
               /\ (w', r) = score_text sentiment (record_date record)
                               (join NEWLINE ts)
                               (logged (map Translate chunks) x w)
               /\ calls w' = calls w ++ map Translate chunks
                                     ++ [Sentiment (join NEWLINE ts)])
              \/ (exists c x1 e,
                    chunks !! k = Some c /\ translate c x = (x1, Raise e)
                    /\ (w', r) = score_text sentiment (record_date record) joined
                                    (logged (map Translate (take (S k) chunks)) x1 w)
                    /\ calls w' = calls w ++ map Translate (take (S k) chunks)
                                          ++ [Sentiment joined])
              \/ (exists c x1,
                    chunks !! k = Some c /\ translate c x = (x1, Diverge)
                    /\ r = Diverge
                    /\ w' = logged (map Translate (take (S k) chunks)) x1 w
                    /\ calls w' = calls w ++ map Translate (take (S k) chunks)))).
Proof.
  intros Hrun.
  destruct (analyze_record_log _ _ _ _ Hrun) as (Hf & Hd & _).
  split; [exact Hf|]. split; [exact Hd|]. split_and!.
  - intros e He. rewrite (analyze_record_raises _ _ _ _ _ He) in Hrun.
    by injection Hrun as <- <-.
  - intros He. rewrite (analyze_record_no_text _ _ _ _ He) in Hrun.
    by injection Hrun as <- <-.
  - intros joined Hj Hne.
    destruct (chunk_text_returns joined 3000) as (chunks & Hc & Hcat & _); [lia|].
    assert (Hchunks : chunks <> []) by (intros ->; by destruct Hne).
    rewrite (analyze_record_with_text _ _ _ _ _ Hj Hne) in Hrun.
    unfold bind at 1, try_except, _translate_ja_to_en in Hrun.
    rewrite Hc in Hrun. unfold bind at 1 in Hrun. cbn [lift_fuel ret] in Hrun.
    unfold bind at 1 in Hrun.
    destruct (for_each (call_translate translate) chunks w) as [w1 r1] eqn:Hloop.
    destruct (for_each_translate_cases _ _ _ _ Hloop)
      as (k & ts & x & Hk & Hans & Hcases).
    exists chunks, k, ts, x. split_and!; [done..|].
    destruct Hcases as [(-> & -> & ->)|[(c & x1 & e & Hck & Hx1 & -> & ->)
                                       |(c & x1 & Hck & Hx1 & -> & ->)]].
    + left. cbn [ret] in Hrun. split; [done|]. split; [by rewrite Hrun|].
      replace w' with (fst (score_text sentiment (record_date record)
                              (join NEWLINE ts)
                              (logged (map Translate chunks) x w)))
        by by rewrite Hrun.
      rewrite score_text_calls. simpl. by rewrite <- app_assoc.
    + right; left. cbn [ret] in Hrun. exists c, x1, e.
      split; [done|]. split; [done|]. split; [by rewrite Hrun|].
      replace w' with (fst (score_text sentiment (record_date record) joined
                              (logged (map Translate (take (S k) chunks)) x1 w)))
        by by rewrite Hrun.
      rewrite score_text_calls. simpl. by rewrite <- app_assoc.
    + right; right. injection Hrun as <- <-. exists c, x1. split_and!; done.
Qed.


End call_log.

(** ** The order of the timeline *)

Section sorted_on.

Context {A : Type} (ahead : A -> A -> bool) (dom : A -> Prop).

(** [ahead] is a strict weak order on the items of [dom]. *)
Hypothesis ahead_asym :
  forall a b, dom a -> dom b -> ahead a b = true -> ahead b a = false.
Hypothesis ahead_cotrans :
  forall a b c, dom a -> dom b -> dom c ->
                ahead a c = true -> ahead a b = true \/ ahead b c = true.

Lemma insert_sorted_sorted_on (x : A) (l : list A) :
  dom x -> Forall dom l ->
  StronglySorted (fun a b => ahead b a = false) l ->
  StronglySorted (fun a b => ahead b a = false) (insert_sorted ahead x l).
Proof.
  intros Hx. induction l as [|y l IH]; simpl; intros Hdom Hs.
  { repeat constructor. }
  apply Forall_cons in Hdom as [Hdy Hdom].
  apply StronglySorted_cons in Hs as [Hy Hs].
  destruct (ahead y x) eqn:Hyx.
  - apply StronglySorted_cons. split; [|by apply IH].
    rewrite insert_sorted_perm. constructor; [by apply ahead_asym|done].
  - apply StronglySorted_cons. split; [|by apply StronglySorted_cons].
    constructor; [done|].
    rewrite Forall_forall in Hy, Hdom |- *. intros z Hz.
    destruct (ahead z x) eqn:Hzx; [|done].
    destruct (ahead_cotrans z y x) as [Hzy|Hyx']; [by apply Hdom|done..| |congruence].
    rewrite (Hy z Hz) in Hzy. done.
Qed.

Lemma stable_sort_sorted_on (l : list A) :
  Forall dom l ->
  StronglySorted (fun a b => ahead b a = false) (stable_sort ahead l).
Proof.
  induction l as [|x l IH]; simpl; intros Hdom; [constructor|].
  apply Forall_cons in Hdom as [Hx Hdom].
  apply insert_sorted_sorted_on; [done| |by apply IH].
  by rewrite stable_sort_perm.
Qed.

End sorted_on.

Section string_order.

Lemma str_ltb_asym (a b : str) : str_ltb a b = true -> str_ltb b a = false.
Proof.
  revert b. induction a as [|x a IH]; intros [|y b]; simpl; try done.
  intros H. apply orb_true_iff in H as [H|H].
  - apply N.ltb_lt in H.
    destruct (N.ltb_spec y x); [lia|]. destruct (N.eqb_spec y x); [lia|done].
  - apply andb_true_iff in H as [->%N.eqb_eq H].
    rewrite N.ltb_irrefl, N.eqb_refl. simpl. by apply IH.
Qed.

Lemma str_ltb_cotrans (a b c : str) :
  str_ltb a c = true -> str_ltb a b = true \/ str_ltb b c = true.
Proof.
  revert b c. induction a as [|x a IH]; intros b [|z c]; simpl.
  - by destruct b.
  - intros _. destruct b; simpl; auto.
  - by destruct b.
  - destruct b as [|y b]; simpl; [auto|]. intros H.
    destruct (N.ltb_spec x y) as [Hxy|Hxy]; [by left|].
    destruct (N.ltb_spec y z) as [Hyz|Hyz]; [by right|]. simpl.
    apply orb_true_iff in H as [H|H]; [apply N.ltb_lt in H; lia|].
    apply andb_true_iff in H as [->%N.eqb_eq H].
    assert (y = z) as -> by lia. rewrite N.eqb_refl. simpl. by apply IH.
Qed.

Lemma date_ahead_asym (a b : DayEmotion) :
  date_ahead a b = true -> date_ahead b a = false.
Proof.
  unfold date_ahead. destruct (date a), (date b); try done. apply str_ltb_asym.
Qed.

Lemma date_ahead_cotrans (a b c : DayEmotion) :
  is_str (date b) = true ->
  date_ahead a c = true -> date_ahead a b = true \/ date_ahead b c = true.
Proof.
  unfold date_ahead. destruct (date a), (date b), (date c); try done.
  intros _. apply str_ltb_cotrans.
Qed.

End string_order.

(** ** More on the chunker and the normaliser *)

Section chunk_sizes.

Lemma ceil_div_step (a c : Z) : 0 < c -> 0 <= a -> (a + c + c - 1) / c = (a + c - 1) / c + 1.
Proof.
  intros Hc Ha. replace (a + c + c - 1) with (a + c - 1 + 1 * c) by lia.
  by rewrite Z.div_add by lia.
Qed.

Lemma ceil_div_last (a c : Z) : 0 < c -> 1 <= a <= c -> (a + c - 1) / c = 1.
Proof.
  intros Hc Ha. symmetry. apply (Z.div_unique _ _ 1 (a - 1)); lia.
Qed.

(** The pieces the loop cuts from [start] on: as many as the rest of the
    text needs, none empty, all but the last of the full size. *)
Lemma chunk_loop_sizes (text : str) (chunk_size : Z) :
  0 < chunk_size ->
  forall (fuel : nat) (start : Z) (chunks : list str),
    0 <= start <= Z.of_nat (length text) ->
    Z.of_nat (length text) - start <= Z.of_nat fuel ->
    exists rest,
      chunk_loop fuel text chunk_size start chunks = Some (chunks ++ rest)
      /\ Z.of_nat (length rest) =
           (Z.of_nat (length text) - start + chunk_size - 1) / chunk_size
      /\ (forall i c, rest !! i = Some c -> (S i < length rest)%nat ->
            Z.of_nat (length c) = chunk_size)
      /\ Forall (fun c => c <> []) rest.
Proof.
  intros Hpos fuel. induction fuel as [|fuel IH]; intros start chunks Hs Hf.
  - exists []. simpl. destruct (Z.ltb_spec start (Z.of_nat (length text))); [lia|].
    rewrite app_nil_r. split_and!; try done.
    replace (Z.of_nat (length text) - start) with 0 by lia.
    simpl. symmetry. apply Z.div_small. lia.
  - simpl. destruct (Z.ltb_spec start (Z.of_nat (length text))) as [Hlt|Hge].
    + set (end_ := Z.min (start + chunk_size) (Z.of_nat (length text))).
      assert (Hend : start < end_ /\ end_ <= Z.of_nat (length text)
                     /\ end_ - start <= chunk_size) by (unfold end_; lia).
      destruct (IH end_ (chunks ++ [slice text start end_]))
        as (rest & Hrun & Hcount & Hfull & Hne); [lia|lia|].
      assert (Hpiece : Z.of_nat (length (slice text start end_)) = end_ - start).
      { rewrite slice_inside by lia. rewrite length_take, length_drop. lia. }
      exists (slice text start end_ :: rest).
      rewrite Hrun, <- app_assoc. split; [done|].
      assert (Hcases : end_ = start + chunk_size \/
                       (end_ = Z.of_nat (length text) /\ end_ < start + chunk_size))
        by (unfold end_; lia).
      split_and!.
      * cbn [length]. rewrite Nat2Z.inj_succ, Hcount.
        destruct Hcases as [He|[He Hlast]]; rewrite He.
        -- replace (Z.of_nat (length text) - start + chunk_size - 1)
             with (Z.of_nat (length text) - (start + chunk_size)
                   + chunk_size + chunk_size - 1) by lia.
           rewrite ceil_div_step by lia. lia.
        -- replace (Z.of_nat (length text) - Z.of_nat (length text) + chunk_size - 1)
             with (chunk_size - 1) by lia.
           rewrite Z.div_small by lia. rewrite ceil_div_last by lia. lia.
      * intros [|i] c Hc Hi; simpl in Hc, Hi.
        -- injection Hc as <-. rewrite Hpiece.
           destruct Hcases as [He|[He Hlast]]; [lia|].
           rewrite He in Hcount.
           replace (Z.of_nat (length text) - Z.of_nat (length text) + chunk_size - 1)
             with (chunk_size - 1) in Hcount by lia.
           rewrite Z.div_small in Hcount by lia. lia.
        -- apply (Hfull i c Hc). lia.
      * constructor; [|done]. intros Hnil. rewrite Hnil in Hpiece. simpl in Hpiece. lia.
    + exists []. rewrite app_nil_r. split_and!; try done.
      replace (Z.of_nat (length text) - start) with 0 by lia.
      simpl. symmetry. apply Z.div_small. lia.
Qed.

End chunk_sizes.

(** X4. With a positive maximum, the chunker cuts a text of [len]
    characters into [max(1, ceil(len / chunk_size))] chunks; every chunk but
    the last has exactly [chunk_size] characters, and no chunk of a text that
    is not empty is empty. *)
Theorem chunk_text_sizes (text : str) (chunk_size : Z) (chunks : list str) :
  0 < chunk_size ->
  _chunk_text text chunk_size = Some chunks ->
  Z.of_nat (length chunks) =
    Z.max 1 ((Z.of_nat (length text) + chunk_size - 1) / chunk_size)
  /\ (forall i c, chunks !! i = Some c -> (S i < length chunks)%nat ->
        Z.of_nat (length c) = chunk_size)
  /\ (text <> [] -> Forall (fun c => c <> []) chunks).
Proof.
  intros Hpos. unfold _chunk_text, chunk_text_fuel.
  destruct (Z.leb_spec (Z.of_nat (length text)) chunk_size) as [Hle|Hgt].
  - intros [= <-]. split_and!.
    + simpl. destruct (decide (length text = 0%nat)) as [Hz|Hz].
      * rewrite Hz. simpl. rewrite Z.div_small by lia. lia.
      * rewrite ceil_div_last by lia. lia.
    + intros [|i] c Hc Hi; simpl in Hi; lia.
    + intros Hne. by repeat constructor.
  - destruct (chunk_loop_sizes text chunk_size Hpos (length text) 0 [])
      as (rest & Hrun & Hcount & Hfull & Hne); [lia|lia|].
    rewrite Hrun. simpl. intros [= <-]. split_and!; [|done..].
    rewrite Hcount, Z.sub_0_r.
    assert (1 <= (Z.of_nat (length text) + chunk_size - 1) / chunk_size); [|lia].
    apply Z.div_le_lower_bound; lia.
Qed.

Lemma chunk_text_sizes_witness :
  let chunks := [lit "abc"; lit "def"; lit "g"] in
  Z.of_nat (length chunks) = 3
  /\ (forall i c, chunks !! i = Some c -> (S i < length chunks)%nat ->
        Z.of_nat (length c) = 3).
Proof.
  intros chunks.
  destruct (chunk_text_sizes (lit "abcdefg") 3 chunks) as (Hn & Hfull & _);
    [lia|reflexivity|].
  split; [exact Hn|exact Hfull].
Defined.

(** X5. With a maximum that is zero or negative, the chunker never returns
    on a text that is not empty: the loop does not advance, whatever the
    number of iterations it is given. *)
Theorem chunk_text_never_returns (text : str) (chunk_size : Z) (fuel : nat) :
  chunk_size <= 0 -> text <> [] ->
  chunk_text_fuel fuel text chunk_size = None.
Proof.
  intros Hcs Hne. unfold chunk_text_fuel.
  assert (Hlen : (0 < length text)%nat) by (destruct text; [done|simpl; lia]).
  destruct (Z.leb_spec (Z.of_nat (length text)) chunk_size); [lia|].
  by apply chunk_loop_diverges.
Qed.

Lemma chunk_text_never_returns_witness :
  chunk_text_fuel 1000 (lit "abc") 0 = None
  /\ chunk_text_fuel 1000 (lit "abc") (-2) = None.
Proof.
  split; apply chunk_text_never_returns; (lia || discriminate).
Defined.

Section markers.

Lemma BR_chars : BR = [60; 98; 114; 62]%N.
Proof. reflexivity. Qed.

Lemma norm_chars_match (s : str) :
  starts_with BR s = true ->
  exists rest, s = BR ++ rest /\ norm_chars s = 10%N :: norm_chars rest.
Proof.
  rewrite BR_chars.
  destruct s as [|c1 [|c2 [|c3 [|c4 rest]]]]; cbn [starts_with]; intros H;
    repeat (apply andb_true_iff in H as [?%N.eqb_eq H]); try done.
  subst. exists rest. split; reflexivity.
Qed.

Lemma norm_chars_no_match (c : N) (s : str) :
  starts_with BR (c :: s) = false -> norm_chars (c :: s) = c :: norm_chars s.
Proof. intros H. unfold norm_chars. cbn [replace_scan]. by rewrite H. Qed.

Lemma norm_chars_head (s t : str) (h : N) :
  norm_chars s = h :: t -> h <> 10%N ->
  exists s', s = h :: s' /\ t = norm_chars s'.
Proof.
  destruct s as [|c s]; [done|]. intros Hn Hh.
  destruct (starts_with BR (c :: s)) eqn:Hm.
  - destruct (norm_chars_match _ Hm) as (rest & _ & Heq).
    rewrite Heq in Hn. by injection Hn as <- _.
  - rewrite (norm_chars_no_match _ _ Hm) in Hn. injection Hn as <- <-. eauto.
Qed.

Lemma norm_chars_no_marker (n : nat) :
  forall (s : str) (i : nat),
    (length s <= n)%nat -> starts_with BR (drop i (norm_chars s)) = false.
Proof.
  induction n as [|n IH]; intros s i Hlen.
  { destruct s; [|simpl in Hlen; lia]. by destruct i. }
  destruct s as [|c s]; [by destruct i|].
  destruct (starts_with BR (c :: s)) eqn:Hm.
  - destruct (norm_chars_match _ Hm) as (rest & Hs & ->).
    assert (length rest <= n)%nat.
    { apply (f_equal length) in Hs. rewrite length_app in Hs. simpl in Hs, Hlen. lia. }
    destruct i as [|i]; [done|]. simpl. by apply IH.
  - rewrite (norm_chars_no_match _ _ Hm).
    destruct i as [|i]; [|simpl; apply IH; simpl in Hlen; lia].
    rewrite drop_0.
    destruct (starts_with BR (c :: norm_chars s)) eqn:Hout; [|done].
    exfalso. rewrite BR_chars in Hout. cbn [starts_with] in Hout.
    apply andb_true_iff in Hout as [Hc%N.eqb_eq Hout].
    destruct (norm_chars s) as [|h1 t1] eqn:H1; [done|].
    apply andb_true_iff in Hout as [Hh1%N.eqb_eq Hout]. subst h1.
    destruct (norm_chars_head _ _ _ H1) as (s1 & -> & ->); [done|].
    destruct (norm_chars s1) as [|h2 t2] eqn:H2; [done|].
    apply andb_true_iff in Hout as [Hh2%N.eqb_eq Hout]. subst h2.
    destruct (norm_chars_head _ _ _ H2) as (s2 & -> & ->); [done|].
    destruct (norm_chars s2) as [|h3 t3] eqn:H3; [done|].
    apply andb_true_iff in Hout as [Hh3%N.eqb_eq _]. subst h3.
    destruct (norm_chars_head _ _ _ H3) as (s3 & -> & ->); [done|].
    subst c. rewrite BR_chars in Hm. cbn [starts_with] in Hm.
    rewrite !N.eqb_refl in Hm. done.
Qed.

Lemma norm_chars_plain (s : str) : 60%N ∉ s -> norm_chars s = s.
Proof.
  induction s as [|c s IH]; [done|]. intros Hc.
  apply not_elem_of_cons in Hc as [Hc Hs].
  rewrite norm_chars_no_match, IH; [done..|].
  rewrite BR_chars. cbn [starts_with]. destruct (N.eqb_spec 60 c); [congruence|done].
Qed.

End markers.

(** X14. The text [_norm_text] returns holds no [<br>] marker any more, at
    any position; a string without the character [<] is returned as it is,
    and a falsy value gives the empty string. *)
Theorem norm_text_removes_markers (value : json) :
  (forall s, _norm_text value = inr s ->
     forall i, starts_with (lit "<br>") (drop i s) = false)
  /\ (forall t, value = JStr t -> 60%N ∉ t -> _norm_text value = inr t)
  /\ (truthy value = false -> _norm_text value = inr []).
Proof.
  split_and!.
  - intros s Hs i. unfold _norm_text in Hs. destruct (truthy value).
    + destruct value; try done. injection Hs as <-.
      by apply (norm_chars_no_marker (length s0)).
    + injection Hs as <-. by destruct i.
  - intros t -> Ht. destruct t as [|c t]; [reflexivity|].
    change (_norm_text (JStr (c :: t))) with (inr (norm_chars (c :: t)) : exn + str).
    by rewrite norm_chars_plain.
  - apply norm_text_falsy.
Qed.

Lemma norm_text_removes_markers_witness :
  _norm_text (JStr (lit "walk, then rest")) = inr (lit "walk, then rest")
  /\ _norm_text (JList []) = inr []
  /\ starts_with (lit "<br>") (drop 2 [97; 10; 98])%N = false.
Proof.
  split_and!.
  - destruct (norm_text_removes_markers (JStr (lit "walk, then rest"))) as (_ & H & _).
    apply H; [done|compute_done].
  - destruct (norm_text_removes_markers (JList [])) as (_ & _ & H). by apply H.
  - destruct (norm_text_removes_markers (JStr (lit "a<br>b"))) as (H & _).
    apply (H [97; 10; 98]%N). reflexivity.
Defined.

(** ** More on the analysis, the summary and the run *)

Section bind_steps.

Context {Ext : Type}.

Lemma bind_return {A B} (m : M Ext A) (k : A -> M Ext B) (w w1 : world Ext) (a : A) :
  m w = (w1, Return a) -> bind m k w = k a w1.
Proof. intros H. unfold bind. by rewrite H. Qed.

Lemma bind_raise {A B} (m : M Ext A) (k : A -> M Ext B) (w w1 : world Ext) (e : exn) :
  m w = (w1, Raise e) -> bind m k w = (w1, Raise e).
Proof. intros H. unfold bind. by rewrite H. Qed.


End bind_steps.

Lemma collect_raises {A : Type} (rs : list (exn + A)) (e0 : exn) :
  (forall e, inl e ∈ rs -> e = e0) -> (exists e, inl e ∈ rs) ->
  collect rs = inl e0.
Proof.
  induction rs as [|[e|a] rs IH]; intros Hall [e' He'].
  - by apply not_elem_of_nil in He'.
  - simpl. f_equal. apply Hall, list_elem_of_here.
  - simpl. rewrite IH; [done| |].
    + intros e He. apply Hall. by apply list_elem_of_further.
    + apply elem_of_cons in He' as [?|?]; [done|eauto].
Qed.

Lemma norm_text_error (v : json) (e : exn) : _norm_text v = inl e -> e = AttributeError.
Proof.
  unfold _norm_text. destruct (negb (truthy v)); [done|].
  destruct v; congruence.
Qed.

(** X1. A text field that holds a truthy value that is not a string (a
    number, [true], a list or an object with members) makes the analysis of
    the record raise [AttributeError], before any call to the translator or
    to the sentiment library. *)
Theorem truthy_non_string_field_raises {Ext : Type}
    (translate : str -> Ext -> Ext * outcome str)
    (sentiment : str -> Ext -> Ext * outcome (float * float))
    (record : gmap str json) (k : str) (v : json) (w : world Ext) :
  k ∈ FIELDS -> record !! k = Some v -> truthy v = true -> is_str v = false ->
  analyze_record translate sentiment record w = (w, Raise AttributeError).
Proof.
  intros Hk Hv Ht Hs. apply analyze_record_raises. unfold joined_text.
  rewrite (collect_raises _ AttributeError); [done| |].
  - intros e [k' [He _]]%list_elem_of_fmap. symmetry in He.
    by apply norm_text_error in He.
  - exists AttributeError. apply list_elem_of_fmap. exists k. split; [|done].
    unfold dict_get, _norm_text. rewrite Hv, Ht. by destruct v.
Qed.

Lemma truthy_non_string_field_raises_witness :
  analyze_record translate_echo (sentiment_const zero zero)
    (record_of [(lit "experience", JStr (lit "fine")); (lit "reflection", JInt 5)])
    world0 = (world0, Raise AttributeError).
Proof.
  apply (truthy_non_string_field_raises _ _ _ (lit "reflection") (JInt 5));
    [compute_done|by vm_compute|done|done].
Defined.



(** X3. An exception of the sentiment library is not caught: the analysis
    of the record raises it right after the call, and a run whose first
    record meets it raises it too, without analysing the records that
    follow. *)
Theorem sentiment_failure_aborts {Ext : Type} {builtins : Builtins}
    (translate : str -> Ext -> Ext * outcome str)
    (sentiment : str -> Ext -> Ext * outcome (float * float))
    (sort_other_dates : list DayEmotion -> exn + list DayEmotion)
    (record : gmap str json) (joined translated : str) (w w1 : world Ext)
    (x : Ext) (e : exn) :
  joined_text record = inr joined -> joined <> [] ->
  try_except (_translate_ja_to_en translate joined) (fun _ => ret joined) w
    = (w1, Return translated) ->
  sentiment translated (ext w1) = (x, Raise e) ->
  analyze_record translate sentiment record w
    = (log_call (Sentiment translated) x w1, Raise e)
  /\ forall fields rest w0,
       w = with_outdir w0 ->
       fields !! lit "records" = Some (JList (JDict record :: rest)) ->
       main translate sentiment sort_other_dates (JDict fields) w0
         = (log_call (Sentiment translated) x w1, Raise e).
Proof.
  intros Hj Hne Ht Hs.
  assert (Hrec : analyze_record translate sentiment record w
                 = (log_call (Sentiment translated) x w1, Raise e)).
  { rewrite (analyze_record_with_text _ _ _ _ _ Hj Hne).
    rewrite (bind_return _ _ _ _ _ Ht).
    unfold score_text, bind, call_sentiment. by rewrite Hs. }
  split; [exact Hrec|]. intros fields rest w0 -> Hfields.
  unfold main. rewrite (bind_return _ _ w0 (with_outdir w0) tt) by done.
  rewrite (bind_return _ _ _ (with_outdir w0) (JList (JDict record :: rest))).
  2:{ unfold dict_get. by rewrite Hfields. }
  apply bind_raise. cbn [analyze_all]. by apply bind_raise.
Qed.

Lemma sentiment_failure_aborts_witness :
  let record := record_of [(lit "experience", JStr (lit "fine"))] in
  let w1 := log_call (Translate (lit "fine")) tt (with_outdir world0) in
  analyze_record translate_echo sentiment_down record (with_outdir world0)
    = (log_call (Sentiment (lit "fine")) tt w1, Raise (ServiceError 500)).
Proof.
  intros record w1.
  apply (sentiment_failure_aborts (builtins := cpython_from_312)
           translate_echo sentiment_down sort_refused
           record (lit "fine") (lit "fine") (with_outdir world0) w1 tt
           (ServiceError 500)); [by vm_compute|done|by vm_compute|done].
Defined.

(** X6. A text of at most 3000 characters goes to the translator in one
    call, whole, and the answer is the translation: nothing is added to
    it. *)
Theorem short_text_one_call {Ext : Type}
    (translate : str -> Ext -> Ext * outcome str)
    (text t : str) (w : world Ext) (x : Ext) :
  (length text <= 3000)%nat ->
  translate text (ext w) = (x, Return t) ->
  _translate_ja_to_en translate text w = (log_call (Translate text) x w, Return t)
  /\ calls (fst (_translate_ja_to_en translate text w)) = calls w ++ [Translate text].
Proof.
  intros Hlen Ht. rewrite (translate_short_text translate text t w x Hlen Ht). done.
Qed.

Lemma short_text_one_call_witness :
  _translate_ja_to_en translate_echo (lit "fine") world0
    = (log_call (Translate (lit "fine")) tt world0, Return (lit "fine")).
Proof.
  apply (short_text_one_call translate_echo (lit "fine") (lit "fine") world0 tt);
    [simpl; lia|done].
Defined.

(** X7. The calls of the analysis of one record, whatever it ends with.
    No file is touched.  A record whose text raises, or is empty, makes no
    call.  Otherwise the chunks of the text go to the translator in order,
    for as long as it answers.  When it has answered every chunk, the
    sentiment library is called once, on the answers joined by newlines.
    When the call on a chunk raises, no further chunk is sent, and the
    sentiment library is called once, on the original text.  When the call
    on a chunk does not return, neither does the analysis, and nothing is
    called after that chunk. *)
Theorem analysis_call_discipline {Ext : Type}
    (translate : str -> Ext -> Ext * outcome str)
    (sentiment : str -> Ext -> Ext * outcome (float * float))
    (record : gmap str json) (w w' : world Ext) (r : outcome DayEmotion) :
  analyze_record translate sentiment record w = (w', r) ->
  out_file w' = out_file w /\ outdir_made w' = outdir_made w
  /\ (forall e, joined_text record = inl e -> w' = w /\ r = Raise e)
  /\ (joined_text record = inr [] ->
      w' = w /\ r = Return (neutral_day (record_date record)))
  /\ (forall joined,
        joined_text record = inr joined -> joined <> [] ->
        exists (chunks : list str) (k : nat) (ts : list str) (x : Ext),
          _chunk_text joined 3000 = Some chunks
          /\ chunks <> [] /\ (k <= length chunks)%nat
          /\ answered translate (take k chunks) (ext w) ts x
          /\ ((k = length chunks
               /\ (w', r) = score_text sentiment (record_date record)
                               (join NEWLINE ts)
                               (logged (map Translate chunks) x w)
               /\ calls w' = calls w ++ map Translate chunks
                                     ++ [Sentiment (join NEWLINE ts)])
              \/ (exists c x1 e,
                    chunks !! k = Some c /\ translate c x = (x1, Raise e)
                    /\ (w', r) = score_text sentiment (record_date record) joined
                                    (logged (map Translate (take (S k) chunks)) x1 w)
                    /\ calls w' = calls w ++ map Translate (take (S k) chunks)
                                          ++ [Sentiment joined])
              \/ (exists c x1,
                    chunks !! k = Some c /\ translate c x = (x1, Diverge)
                    /\ r = Diverge
                    /\ w' = logged (map Translate (take (S k) chunks)) x1 w
                    /\ calls w' = calls w ++ map Translate (take (S k) chunks)))).
Proof. apply analyze_record_calls. Qed.

Lemma analysis_call_discipline_witness :
  let record := record_of [(lit "experience", JStr (lit "fine"))] in
  exists w' d,
    analyze_record translate_down (sentiment_const zero zero) record world0
      = (w', Return d)
    /\ out_file w' = Missing
    /\ exists (chunks : list str) (k : nat),
         _chunk_text (lit "fine") 3000 = Some chunks
         /\ chunks !! k = Some (lit "fine")
         /\ calls w' = map Translate (take (S k) chunks) ++ [Sentiment (lit "fine")].
Proof.
  intros record. eexists _, _. split; [by vm_compute|].
  edestruct (analysis_call_discipline translate_down (sentiment_const zero zero)
               record world0) as (Hfile & _ & _ & _ & Hcalls); [by vm_compute|].
  split; [exact Hfile|].
  destruct (Hcalls (lit "fine")) as (chunks & k & ts & x & Hc & _ & _ & Hans & Hcases);
    [by vm_compute|done|].
  exists chunks, k. split; [exact Hc|].
  assert (Hone : chunks = [lit "fine"]).
  { change (_chunk_text (lit "fine") 3000) with (Some [lit "fine"]) in Hc.
    by injection Hc. }
  subst chunks.
  destruct Hcases as [(-> & _)|[(c & x1 & e & Hk & _ & _ & Hlog)
                               |(c & x1 & Hk & _ & Hr & _)]].
  - exfalso. inversion Hans as [|? ? ? ? ? ? ? Hdown]. discriminate Hdown.
  - split; [|exact Hlog].
    destruct k as [|k]; [reflexivity|by rewrite lookup_cons, lookup_nil in Hk].
  - discriminate Hr.
Defined.

Lemma days_labelled_total (ds : list DayEmotion) :
  Forall (fun d => sentiment_label d ∈ LABELS) ds ->
  (days_labelled (lit "positive") ds + days_labelled (lit "neutral") ds
   + days_labelled (lit "negative") ds = length ds)%nat.
Proof.
  induction 1 as [|d ds Hd Hds IH]; [done|].
  rewrite !days_labelled_cons. simpl.
  unfold LABELS in Hd. rewrite !elem_of_cons in Hd.
  destruct Hd as [->|[->|[->|Hd]]]; [| | |by apply not_elem_of_nil in Hd].
  all: repeat case_decide; try lia; exfalso;
    repeat match goal with
      | H : lit _ = lit _ |- _ => vm_compute in H; try discriminate H; clear H
      | H : lit _ <> lit _ |- _ => by destruct H
      end.
Qed.

(** X8. On days labelled with the three labels, [label_counts] has exactly
    the three labels for keys, each with the number of days that carry it,
    and the three counts add up to [days]. *)
Theorem label_counts_partition {builtins : Builtins} (ds : list DayEmotion) (s : Summary) :
  Forall (fun d => sentiment_label d ∈ LABELS) ds ->
  summarize ds = inr s ->
  (forall l, label_counts s !! l =
             if decide (l ∈ LABELS) then Some (days_labelled l ds) else None)
  /\ days s = length ds
  /\ exists a b c,
      label_counts s !! lit "positive" = Some a
      /\ label_counts s !! lit "neutral" = Some b
      /\ label_counts s !! lit "negative" = Some c
      /\ (a + b + c = days s)%nat.
Proof.
  intros Hok Hs.
  destruct (summarize_returns ds Hok) as (s' & Hs' & Hdays & Hcounts & _).
  assert (s' = s) as -> by congruence.
  split; [exact Hcounts|]. split; [exact Hdays|].
  exists (days_labelled (lit "positive") ds), (days_labelled (lit "neutral") ds),
         (days_labelled (lit "negative") ds).
  rewrite !Hcounts, Hdays. split_and!; [by rewrite decide_True by compute_done..|].
  by apply days_labelled_total.
Qed.

Lemma label_counts_partition_witness :
  let day (label : str) :=
    {| date := JStr (lit "2024-05-01"); sentiment_score := zero;
       sentiment_label := label; subjectivity := zero;
       dominant_emotions := [lit "calm"] |} in
  let ds := [day (lit "neutral"); day (lit "positive"); day (lit "neutral")] in
  exists s, summarize (builtins := cpython_from_312) ds = inr s
            /\ label_counts s !! lit "neutral" = Some 2%nat
            /\ label_counts s !! lit "mixed" = None.
Proof.
  intros day ds.
  assert (Hok : Forall (fun d => sentiment_label d ∈ LABELS) ds)
    by (repeat constructor; compute_done).
  destruct (summarize_returns (builtins := cpython_from_312) ds Hok) as (s & Hs & _).
  destruct (label_counts_partition (builtins := cpython_from_312) ds s Hok Hs)
    as (Hcounts & _).
  exists s. split; [exact Hs|]. rewrite !Hcounts. split; reflexivity.
Defined.

(** X9. A day whose label is not one of the three makes [summarize] raise
    [KeyError] on that label. *)
Theorem unknown_label_raises {builtins : Builtins} (ds : list DayEmotion) :
  Exists (fun d => sentiment_label d ∉ LABELS) ds ->
  exists d, d ∈ ds /\ (sentiment_label d ∉ LABELS)
            /\ summarize ds = inl (KeyError (sentiment_label d)).
Proof.
  intros Hbad.
  destruct (tally_raises ds ZERO_COUNTS []) as (d & Hin & Hnone & Hrun).
  { eapply Exists_impl; [exact Hbad|]. intros d Hd. simpl in Hd.
    rewrite zero_counts_lookup. by rewrite decide_False. }
  exists d. split; [done|]. split.
  - rewrite zero_counts_lookup in Hnone. by destruct (decide (_ ∈ LABELS)).
  - destruct ds as [|d0 ds]; [by apply not_elem_of_nil in Hin|].
    unfold summarize. by rewrite Hrun.
Qed.

Lemma unknown_label_raises_witness :
  let day (label : str) :=
    {| date := JStr (lit "2024-05-01"); sentiment_score := zero;
       sentiment_label := label; subjectivity := zero;
       dominant_emotions := [lit "calm"] |} in
  exists d, (sentiment_label d ∉ LABELS)
            /\ summarize (builtins := cpython_from_312)
                         [day (lit "neutral"); day (lit "mixed")]
               = inl (KeyError (sentiment_label d)).
Proof.
  intros day.
  destruct (unknown_label_raises (builtins := cpython_from_312)
              [day (lit "neutral"); day (lit "mixed")])
    as (d & _ & Hd & Hrun).
  - apply Exists_cons_tl, Exists_cons_hd. compute_done.
  - by exists d.
Defined.

Ltac float_literals_goal :=
  rewrite ?float_0_2, ?float_0_45, ?float_0_15, ?float_0_12, ?float_1;
  cbn [fneg SFopp negb].

(** X12. Label and emotions agree: a positive day carries joy and
    confidence or calm and confidence, a negative day frustration and anxiety
    or anxiety and calm, and a day whose only emotion is calm is neutral. *)
Theorem label_agrees_with_emotions (p s : float) :
  (_to_label p = lit "positive" ->
     _to_emotions p s = [lit "joy"; lit "confidence"]
     \/ _to_emotions p s = [lit "calm"; lit "confidence"])
  /\ (_to_label p = lit "negative" ->
        _to_emotions p s = [lit "frustration"; lit "anxiety"]
        \/ _to_emotions p s = [lit "anxiety"; lit "calm"])
  /\ (_to_emotions p s = [lit "calm"] -> _to_label p = lit "neutral").
Proof.
  assert (Hup : fge p (decimal 2 1) = true -> fge p (decimal 15 2) = true).
  { float_literals_goal. unfold fge, SFleb.
    destruct p as [|[]| |[] m e]; try done. rewrite !SFcompare_positive.
    destruct (Z.compare_spec (-55) e); try done.
    destruct (Pos.compare_spec 7205759403792794 m) as [<-|Hm|Hm]; try done.
    intros _.
    destruct (Pos.compare_spec 5404319552844595 m) as [?|?|Hm']; try done.
    exfalso. assert (H02 : (5404319552844595 < 7205759403792794)%positive) by done.
    pose proof (Pos.lt_trans _ _ _ Hm' (Pos.lt_trans _ _ _ H02 Hm)) as Hirr.
    by apply Pos.lt_irrefl in Hirr. }
  assert (Hdown : fle p (fneg (decimal 2 1)) = true ->
                  fle p (fneg (decimal 15 2)) = true).
  { float_literals_goal. unfold fle, SFleb.
    destruct p as [|[]| |[] m e]; try done. rewrite !SFcompare_negative.
    destruct (Z.compare_spec e (-55)); try done.
    destruct (Pos.compare_spec m 7205759403792794) as [->|Hm|Hm]; try done.
    intros _.
    destruct (Pos.compare_spec m 5404319552844595) as [?|Hm'|?]; try done.
    exfalso. assert (H02 : (5404319552844595 < 7205759403792794)%positive) by done.
    pose proof (Pos.lt_trans _ _ _ Hm' (Pos.lt_trans _ _ _ H02 Hm)) as Hirr.
    by apply Pos.lt_irrefl in Hirr. }
  assert (Hsplit : fle p (fneg (decimal 2 1)) = true ->
                   fge p (decimal 45 2) = false /\ fge p (decimal 15 2) = false).
  { float_literals_goal. intros H.
    split; by eapply fle_negative_not_fge_positive. }
  unfold _to_label, _to_emotions. split_and!.
  - destruct (fge p (decimal 2 1)) eqn:H2.
    + intros _. rewrite (Hup eq_refl).
      destruct (fge p (decimal 45 2)); [destruct (fge s _)|]; auto.
    + by destruct (fle p (fneg (decimal 2 1))).
  - destruct (fge p (decimal 2 1)) eqn:H2; [done|].
    destruct (fle p (fneg (decimal 2 1))) eqn:H3; [|done].
    intros _. destruct (Hsplit eq_refl) as [-> ->]. rewrite (Hdown eq_refl).
    destruct (fle p (fneg (decimal 45 2))); [destruct (fge s _)|]; auto.
  - destruct (fge p (decimal 45 2)); [by destruct (fge s _)|].
    destruct (fge p (decimal 15 2)) eqn:H15; [done|].
    destruct (fle p (fneg (decimal 45 2))); [by destruct (fge s _)|].
    destruct (fle p (fneg (decimal 15 2))) eqn:H15'; [done|]. intros _.
    destruct (fge p (decimal 2 1)) eqn:H2; [by specialize (Hup eq_refl)|].
    destruct (fle p (fneg (decimal 2 1))) eqn:H2'; [|done].
    by specialize (Hdown eq_refl).
Qed.

Lemma label_agrees_with_emotions_witness :
  _to_emotions (decimal 3 1) (decimal 9 1) = [lit "joy"; lit "confidence"]
  \/ _to_emotions (decimal 3 1) (decimal 9 1) = [lit "calm"; lit "confidence"].
Proof.
  destruct (label_agrees_with_emotions (decimal 3 1) (decimal 9 1)) as (H & _).
  apply H. by vm_compute.
Defined.

Section records.

Context {Ext : Type}.
Variable translate : str -> Ext -> Ext * outcome str.
Variable sentiment : str -> Ext -> Ext * outcome (float * float).

Lemma analyze_all_dicts (items : list json) (w : world Ext) :
  analyze_all translate sentiment items w =
  analyze_all translate sentiment (map JDict (dict_records items)) w.
Proof.
  revert w. induction items as [|v items IH]; intros w; [done|].
  destruct v; simpl; try apply IH.
  unfold bind. destruct (analyze_record _ _ _ _) as [w1 [d| |]]; [|done..].
  by rewrite IH.
Qed.

Lemma analyze_all_length (items : list json) (w w1 : world Ext)
    (analyzed : list DayEmotion) :
  analyze_all translate sentiment items w = (w1, Return analyzed) ->
  length analyzed = length (dict_records items).
Proof.
  intros Hrun. apply analyze_all_inv in Hrun. symmetry.
  by eapply Forall2_length.
Qed.

End records.

(** X10. The elements of [records] that are not objects are skipped: the
    run is the run on the objects alone. *)
Theorem non_dict_records_skipped {Ext : Type} {builtins : Builtins}
    (translate : str -> Ext -> Ext * outcome str)
    (sentiment : str -> Ext -> Ext * outcome (float * float))
    (sort_other_dates : list DayEmotion -> exn + list DayEmotion)
    (fields : gmap str json) (items : list json) (w : world Ext) :
  main translate sentiment sort_other_dates
       (JDict (<[lit "records" := JList items]> fields)) w =
  main translate sentiment sort_other_dates
       (JDict (<[lit "records" := JList (map JDict (dict_records items))]> fields)) w.
Proof.
  unfold main. rewrite !(bind_return _ _ w (with_outdir w) tt) by done.
  rewrite (bind_return _ _ _ (with_outdir w) (JList items)).
  2:{ unfold dict_get. by rewrite lookup_insert_eq. }
  rewrite (bind_return _ _ _ (with_outdir w) (JList (map JDict (dict_records items)))).
  2:{ unfold dict_get. by rewrite lookup_insert_eq. }
  unfold bind. by rewrite analyze_all_dicts.
Qed.

(** X11. In a run whose records carry a string date or none and are all
    analysed, the run gets as far as writing a summary and a timeline that
    holds the analysed days in ascending order of date (strings compared by
    code point), days with the same date in the order of the input, and
    [days] is the number of objects in [records].  When no date holds a
    surrogate code point the run returns with this output in the file; when
    one does, the write raises [UnicodeEncodeError] and the file is left
    empty. *)
Theorem timeline_sorted_by_date {Ext : Type} {builtins : Builtins}
    (translate : str -> Ext -> Ext * outcome str)
    (sentiment : str -> Ext -> Ext * outcome (float * float))
    (sort_other_dates : list DayEmotion -> exn + list DayEmotion)
    (fields : gmap str json) (items : list json) (w w1 : world Ext)
    (analyzed : list DayEmotion) :
  fields !! lit "records" = Some (JList items) ->
  Forall (fun record => is_str (record_date record) = true) (dict_records items) ->
  analyze_all translate sentiment items (with_outdir w) = (w1, Return analyzed) ->
  exists s tl,
    main translate sentiment sort_other_dates (JDict fields) w
      = write_out {| summary := s; timeline := tl |} w1
    /\ (Forall (fun record => json_utf8_ok (record_date record) = true)
               (dict_records items) ->
        main translate sentiment sort_other_dates (JDict fields) w
          = (with_output {| summary := s; timeline := tl |} w1, Return tt))
    /\ (Exists (fun record => json_utf8_ok (record_date record) = false)
               (dict_records items) ->
        main translate sentiment sort_other_dates (JDict fields) w
          = (with_empty_file w1, Raise UnicodeEncodeError))
    /\ summarize tl = inr s
    /\ tl ≡ₚ analyzed
    /\ days s = length (dict_records items)
    /\ (forall i j a b x y,
          (i < j)%nat -> tl !! i = Some a -> tl !! j = Some b ->
          date a = JStr x -> date b = JStr y -> str_ltb y x = false)
    /\ (forall day, filter (dated day) tl = filter (dated day) analyzed).
Proof.
  intros Hrec Hdates Hrun.
  pose proof (analyze_all_inv _ _ _ _ _ _ Hrun) as Hinv.
  assert (Hstr : Forall (fun d => is_str (date d) = true) analyzed).
  { apply Forall_forall. intros d [i Hi]%list_elem_of_lookup.
    destruct (Forall2_lookup_r _ _ _ i d Hinv Hi) as (record & Hr & wa & wb & Hd).
    apply analyze_record_well_formed in Hd as [_ ->].
    rewrite Forall_forall in Hdates. apply Hdates.
    by eapply list_elem_of_lookup_2. }
  destruct (main_on_string_dates translate sentiment sort_other_dates
              fields items w w1 analyzed Hrec Hdates Hrun)
    as (s & Hs & Hok & Hmain).
  exists s, (stable_sort date_ahead analyzed).
  split_and!; [done| | |done|apply stable_sort_perm| | |].
  - intros Hclean%forallb_Forall. rewrite Hmain.
    apply write_out_ok. by rewrite Hok.
  - intros Hbad%forallb_Exists. rewrite Hmain.
    apply write_out_fails. by rewrite Hok.
  - assert (Hwf : Forall (fun d => sentiment_label d ∈ LABELS)
                         (stable_sort date_ahead analyzed)).
    { rewrite stable_sort_perm. apply Forall_forall.
      intros d [i Hi]%list_elem_of_lookup.
      destruct (Forall2_lookup_r _ _ _ i d Hinv Hi) as (record & _ & wa & wb & Hd).
      by apply analyze_record_well_formed in Hd as [[? _] _]. }
    destruct (summarize_returns _ Hwf) as (s' & Hs' & Hdays & _).
    assert (s' = s) as -> by congruence.
    rewrite Hdays, stable_sort_length. by eapply analyze_all_length.
  - intros i j a b x y Hij Hi Hj Ha Hb.
    assert (Hsorted : StronglySorted (fun a b => date_ahead b a = false)
                                     (stable_sort date_ahead analyzed)).
    { apply (stable_sort_sorted_on date_ahead (fun d => is_str (date d) = true));
        [|intros; by apply date_ahead_cotrans|done].
      intros; by apply date_ahead_asym. }
    pose proof (StronglySorted_lookups _ _ _ _ _ _ Hsorted Hij Hi Hj) as Hab.
    unfold date_ahead in Hab. by rewrite Ha, Hb in Hab.
  - intros day. apply stable_sort_filter.
    intros a b Ha Hb. unfold dated in Ha, Hb. unfold date_ahead.
    destruct (date a), (date b); try done. subst.
    destruct (str_ltb day day) eqn:Hlt; [|done].
    by rewrite (str_ltb_asym _ _ Hlt) in Hlt.
Qed.

Lemma timeline_sorted_by_date_witness :
  let record (day text : str) :=
    JDict (record_of [(lit "date", JStr day); (lit "experience", JStr text)]) in
  let items := [record (lit "2024-05-02") (lit "b"); JNull;
                record (lit "2024-05-01") (lit "a")] in
  exists s tl,
    main (builtins := cpython_from_312)
         translate_echo (sentiment_const zero zero) sort_refused
         (JDict {[lit "records" := JList items]}) world0
      = (with_output {| summary := s; timeline := tl |}
           (fst (analyze_all translate_echo (sentiment_const zero zero) items
                             (with_outdir world0))), Return tt)
    /\ days s = 2%nat
    /\ map date tl = [JStr (lit "2024-05-01"); JStr (lit "2024-05-02")].
Proof.
  intros record items.
  destruct (timeline_sorted_by_date (builtins := cpython_from_312)
              translate_echo (sentiment_const zero zero)
              sort_refused {[lit "records" := JList items]} items world0
              (fst (analyze_all translate_echo (sentiment_const zero zero) items
                                (with_outdir world0)))
              [scored_day (JStr (lit "2024-05-02")) zero zero;
               scored_day (JStr (lit "2024-05-01")) zero zero])
    as (s & tl & _ & Hclean & _ & _ & _ & Hdays & _).
  - by vm_compute.
  - repeat constructor.
  - by vm_compute.
  - assert (Hmain := Hclean ltac:(repeat constructor)).
    exists s, tl. split; [exact Hmain|]. split; [exact Hdays|].
    vm_compute in Hmain. injection Hmain as Hs <-. reflexivity.
Defined.

(** X13. Every [DayEmotion] the analysis of a record returns carries one of
    the three labels, one or two distinct emotions of the vocabulary, and the
    [date] of the record as it is (any JSON value), the empty string when the
    record has none. *)
Theorem day_emotion_invariant {Ext : Type}
    (translate : str -> Ext -> Ext * outcome str)
    (sentiment : str -> Ext -> Ext * outcome (float * float))
    (record : gmap str json) (w w' : world Ext) (d : DayEmotion) :
  analyze_record translate sentiment record w = (w', Return d) ->
  sentiment_label d ∈ LABELS
  /\ NoDup (dominant_emotions d)
  /\ Forall (fun tag => tag ∈ EMOTIONS) (dominant_emotions d)
  /\ (1 <= length (dominant_emotions d) <= 2)%nat
  /\ date d = match record !! lit "date" with
              | Some v => v
              | None => JStr []
              end.
Proof.
  intros Hrun. apply analyze_record_well_formed in Hrun as [(? & ? & ? & ?) Hd].
  split_and!; try done; lia.
Qed.

Lemma day_emotion_invariant_witness :
  let record := record_of [(lit "date", JInt 20240501);
                           (lit "experience", JStr (lit "fine"))] in
  exists w' d,
    analyze_record translate_echo (sentiment_const (decimal 5 1) (decimal 5 1))
                   record world0 = (w', Return d)
    /\ date d = JInt 20240501 /\ (sentiment_label d ∈ LABELS).
Proof.
  intros record. eexists _, _. split; [by vm_compute|].
  edestruct (day_emotion_invariant translate_echo
               (sentiment_const (decimal 5 1) (decimal 5 1)) record world0)
    as (Hl & _ & _ & _ & Hd); [by vm_compute|].
  split; [|exact Hl]. rewrite Hd. by vm_compute.
Defined.

Lemma for_each_translate_returns {Ext : Type}
    (translate : str -> Ext -> Ext * outcome str) (chunks : list str) :
  forall (w w' : world Ext) (ts : list str),
    for_each (call_translate translate) chunks w = (w', Return ts) ->
    Forall2 (fun c t => exists x x', translate c x = (x', Return t)) chunks ts.
Proof.
  induction chunks as [|c chunks IH]; intros w w' ts Hrun.
  { simpl in Hrun. injection Hrun as <- <-. constructor. }
  simpl in Hrun. unfold bind at 1 in Hrun.
  destruct (translate c (ext w)) as [x [y|e|]] eqn:Hc;
    rewrite (call_translate_eq _ _ _ _ _ Hc) in Hrun; try done.
  unfold bind at 1 in Hrun.
  destruct (for_each (call_translate translate) chunks
                     (log_call (Translate c) x w)) as [w1 [ys|e|]] eqn:Hrest;
    try done.
  simpl in Hrun. unfold ret in Hrun. injection Hrun as <- <-.
  constructor; [eauto|by eapply IH].
Qed.

(** X15. When the translation of a text returns, the translator has been
    called once on each chunk of the text, in order, and the result is the
    answers joined by newlines; the analysis then scores that result, not the
    original text. *)
Theorem translation_joins_chunks {Ext : Type}
    (translate : str -> Ext -> Ext * outcome str)
    (sentiment : str -> Ext -> Ext * outcome (float * float))
    (text t : str) (w w' : world Ext) :
  _translate_ja_to_en translate text w = (w', Return t) ->
  (exists chunks ts,
      _chunk_text text 3000 = Some chunks
      /\ concat chunks = text
      /\ Forall2 (fun c a => exists x x', translate c x = (x', Return a)) chunks ts
      /\ t = join NEWLINE ts
      /\ calls w' = calls w ++ map Translate chunks)
  /\ forall record,
       joined_text record = inr text -> text <> [] ->
       analyze_record translate sentiment record w =
         score_text sentiment (record_date record) t w'.
Proof.
  intros Hrun. split.
  - destruct (translate_log _ _ _ _ _ Hrun) as (_ & _ & chunks & n & Hc & _ & Hcalls & Hn).
    rewrite (Hn t eq_refl), firstn_all in Hcalls.
    destruct (chunk_text_returns text 3000) as (chunks' & Hc' & Hcat & _); [lia|].
    assert (chunks' = chunks) as -> by congruence.
    unfold _translate_ja_to_en in Hrun. rewrite Hc in Hrun.
    unfold bind at 1 in Hrun. cbn [lift_fuel ret] in Hrun.
    unfold bind at 1 in Hrun.
    destruct (for_each (call_translate translate) chunks w) as [w1 [ts|e|]] eqn:Hts;
      try done.
    unfold ret in Hrun. injection Hrun as <- <-.
    exists chunks, ts. split_and!; try done.
    by eapply for_each_translate_returns.
  - intros record Hj Hne.
    rewrite (analyze_record_with_text _ _ _ _ _ Hj Hne).
    apply bind_return. unfold try_except. by rewrite Hrun.
Qed.

Lemma translation_joins_chunks_witness :
  exists chunks ts,
    _chunk_text (lit "fine") 3000 = Some chunks
    /\ concat chunks = lit "fine"
    /\ Forall2 (fun c a => exists x x', translate_echo c x = (x', Return a)) chunks ts
    /\ lit "fine" = join NEWLINE ts
    /\ calls (log_call (Translate (lit "fine")) tt world0)
       = calls world0 ++ map Translate chunks.
Proof.
  apply (translation_joins_chunks translate_echo sentiment_down
           (lit "fine") (lit "fine") world0
           (log_call (Translate (lit "fine")) tt world0)).
  by vm_compute.
Defined.
